(** * Dashbuild trend chart: trend calculation and chart data

    A shallow embedding of the shared trend-chart component
    (formatMetric, calculateTrend, makeArrowNode, buildTrendChart) and the
    properties the design document states about it.

    Modelling conventions.

    - A JavaScript number is an exact rational ([Qc]).  Arithmetic,
      comparisons, [Number.isInteger] and [toFixed] are those of the exact
      value; the rounding of binary64 arithmetic, NaN and the infinities are
      outside the model.
    - A metrics object is a finite map from metric keys to values; a missing
      key reads as [None] (JavaScript's undefined), a stored null as
      [Some JNull].  [x == null] holds of both.
    - A [Date] is its time value in milliseconds, read on the local
      wall-clock time line on which getDate and setDate operate.
    - The card handed to the markup layer and the options handed to the
      plotting library are records: the values the templates interpolate.
    - The host's locale formatting (toLocaleString, toLocaleDateString) is
      an interface, [Locale]; an en-US instance is used for the examples. *)

From Stdlib Require Import ZArith QArith Qcanon Qround String Ascii.
From stdpp Require Import base option list gmap strings numbers pretty.

Local Open Scope string_scope.
Local Open Scope Z_scope.

(** ** Numbers *)

Module Number.

Definition ltb (x y : Qc) : bool := bool_decide (x < y)%Qc.
Definition eqb (x y : Qc) : bool := bool_decide (x = y).

Definition ofZ (z : Z) : Qc := Q2Qc (inject_Z z).

(** [Number.isInteger(x)] *)
Definition isInteger (x : Qc) : bool := Pos.eqb (Qden x) 1.

(** [String(x)] for an integer [x] with [|x| < 10^21]: its decimal
    digits. *)
Definition toString (x : Qc) : string := pretty (Qnum x).

Fixpoint zeros (n : nat) : string :=
  match n with
  | O => EmptyString
  | S n => String "0" (zeros n)
  end.

(** The integer [n] for which [n - x] is as close to zero as possible,
    the larger one when there are two. *)
Definition nearest (x : Qc) : Z := Qfloor (x + Q2Qc (1 # 2))%Qc.

Definition pow10 (f : nat) : Qc := ofZ (10 ^ Z.of_nat f).

(** The scaled integer that [toFixed(f)] prints for [x >= 0]. *)
Definition fixedDigits (f : nat) (x : Qc) : Z := nearest (x * pow10 f)%Qc.

(** The digits of [n >= 0] with a decimal point before the last [f]
    digits, padded with leading zeros to at least [f + 1] digits. *)
Definition pointed (f : nat) (n : Z) : string :=
  let m := pretty n in
  match f with
  | O => m
  | _ =>
      let k := String.length m in
      let m := if (k <=? f)%nat then zeros (f + 1 - k) ++ m else m in
      let k := String.length m in
      substring 0 (k - f) m ++ "." ++ substring (k - f) f m
  end.

Definition abs (x : Qc) : Qc := if ltb x 0 then (- x)%Qc else x.

(** [x.toFixed(f)], for [|x| < 10^21]: the sign is split off and the
    magnitude is printed. *)
Definition toFixed (f : nat) (x : Qc) : string :=
  let s := if ltb x 0 then "-" else EmptyString in
  let x := abs x in
  s ++ pointed f (fixedDigits f x).

(** Whether the whole string matches [\.?0+]. *)
Fixpoint allZeros (s : string) : bool :=
  match s with
  | EmptyString => true
  | String c s => Ascii.eqb c "0" && allZeros s
  end.

Definition matchesDotZeros (s : string) : bool :=
  match s with
  | EmptyString => false
  | String c r =>
      (Ascii.eqb c "." && negb (String.eqb r EmptyString) && allZeros r)
      || allZeros s
  end.

(** [s.replace(/\.?0+$/, '')]: the leftmost suffix that matches is
    removed. *)
Fixpoint trimZeros (s : string) : string :=
  if matchesDotZeros s then EmptyString
  else match s with
       | EmptyString => EmptyString
       | String c r => String c (trimZeros r)
       end.

End Number.

(** ** Dates

    The time-value arithmetic of the language standard, as far as
    [getDate] and [setDate] need it. *)

Module Date.

Definition t := Z.

Definition msPerDay : Z := 86400000.

Definition Day (tv : Z) : Z := tv / msPerDay.
Definition TimeWithinDay (tv : Z) : Z := tv mod msPerDay.

Definition DayFromYear (y : Z) : Z :=
  365 * (y - 1970) + (y - 1969) / 4 - (y - 1901) / 100 + (y - 1601) / 400.

(** The largest year whose first day is not after day [d]. *)
Definition YearFromDay (d : Z) : Z :=
  let y := 1970 + (d * 400) / 146097 in
  if DayFromYear (y + 1) <=? d then y + 1
  else if DayFromYear y <=? d then y
  else y - 1.

Definition YearFromTime (tv : Z) : Z := YearFromDay (Day tv).

Definition InLeapYear (y : Z) : Z :=
  if DayFromYear (y + 1) - DayFromYear y =? 366 then 1 else 0.

Definition DayWithinYear (tv : Z) : Z :=
  Day tv - DayFromYear (YearFromTime tv).

(** Days of the year before month [m] (0 is January). *)
Definition monthOffset (m leap : Z) : Z :=
  match m with
  | 0 => 0
  | 1 => 31
  | 2 => 59 + leap
  | 3 => 90 + leap
  | 4 => 120 + leap
  | 5 => 151 + leap
  | 6 => 181 + leap
  | 7 => 212 + leap
  | 8 => 243 + leap
  | 9 => 273 + leap
  | 10 => 304 + leap
  | _ => 334 + leap
  end.

Definition MonthFromTime (tv : Z) : Z :=
  let d := DayWithinYear tv in
  let leap := InLeapYear (YearFromTime tv) in
  if d <? 31 then 0
  else if d <? 59 + leap then 1
  else if d <? 90 + leap then 2
  else if d <? 120 + leap then 3
  else if d <? 151 + leap then 4
  else if d <? 181 + leap then 5
  else if d <? 212 + leap then 6
  else if d <? 243 + leap then 7
  else if d <? 273 + leap then 8
  else if d <? 304 + leap then 9
  else if d <? 334 + leap then 10
  else 11.

Definition DateFromTime (tv : Z) : Z :=
  DayWithinYear tv
  - monthOffset (MonthFromTime tv) (InLeapYear (YearFromTime tv)) + 1.

(** [MakeDay(year, month, date)] for a month in 0..11: the day number of
    the first of the month, plus [date - 1]. *)
Definition MakeDay (year month date : Z) : Z :=
  DayFromYear year + monthOffset month (InLeapYear year) + date - 1.

Definition MakeDate (day time : Z) : Z := day * msPerDay + time.

(** [new Date(d)]: a new object with the same time value. *)
Definition copy (d : t) : t := d.

Definition getDate (d : t) : Z := DateFromTime d.

Definition setDate (d : t) (date : Z) : t :=
  MakeDate (MakeDay (YearFromTime d) (MonthFromTime d) date)
           (TimeWithinDay d).

Definition getMonth (d : t) : Z := MonthFromTime d.
Definition getFullYear (d : t) : Z := YearFromTime d.

(** The time value of a calendar day at midnight. *)
Definition ofYMD (y m d : Z) : t := MakeDate (MakeDay y (m - 1) d) 0.

End Date.

(** ** Data model *)

(** A metric value as stored in a metrics object. *)
Inductive jsval :=
| JNull
| JNum (x : Qc).

(** [v == null], for the result [v] of a property read. *)
Definition isNullish (v : option jsval) : bool :=
  match v with
  | None | Some JNull => true
  | Some (JNum _) => false
  end.

(** One entry of the metric history: [{ date, metrics }]. *)
Record snapshot := {
  date : Date.t;
  metrics : gmap string jsval;
}.

(** The host's locale-dependent formatting. *)
Class Locale := {
  toLocaleString : Qc → string;
  toLocaleDateString : Date.t → string;
}.

(** The three arrow icons (SVG markup constants of the module). *)
Inductive icon := svgUpRight | svgDownRight | svgFlat.

(** The result of calculateTrend.  [arrow = None] is the empty string (no
    direction); the colour is one of the three trend colour variables. *)
Record trend := {
  text : string;
  arrow : option icon;
  color : string;
}.

Record trendOptions := {
  inverse : bool;
  neutral : bool;
}.

Definition defaultTrendOptions : trendOptions :=
  {| inverse := false; neutral := false |}.

(** ** formatMetric *)

Definition emDash : string :=
  String "226" (String "128" (String "148" EmptyString)).

Definition formatMetric `{Locale} (value : option jsval) (suffix : string)
  : string :=
  match value with
  | None | Some JNull => emDash
  | Some (JNum x) => toLocaleString x ++ suffix
  end.

(** ** calculateTrend *)

Definition noTrend : trend :=
  {| text := EmptyString; arrow := None; color := "var(--dash-trend-flat)" |}.

(** [sign + (Number.isInteger(delta) ? delta : delta.toFixed(1))] *)
Definition deltaText (delta : Qc) : string :=
  let sign := if Number.ltb 0 delta then "+" else EmptyString in
  sign ++ (if Number.isInteger delta then Number.toString delta
           else Number.toFixed 1 delta).

Definition previousValue (metricHistory : list snapshot) (metricKey : string)
  : option jsval :=
  metricHistory !! (length metricHistory - 2)%nat
    ≫= λ entry, metrics entry !! metricKey.

(** The part of calculateTrend after the two comparison values are read. *)
Definition trendBetween (previousValue currentValue : option jsval)
    (options : trendOptions) : trend :=
  match previousValue, currentValue with
  | Some (JNum previousValue), Some (JNum currentValue) =>
      let delta := (currentValue - previousValue)%Qc in
      if Number.eqb delta 0 then
        {| text := deltaText delta;
           arrow := Some svgFlat;
           color := "var(--dash-trend-flat)" |}
      else
        let isPositiveTrend :=
          if inverse options then Number.ltb delta 0
          else Number.ltb 0 delta in
        let arrow := if Number.ltb 0 delta then svgUpRight
                     else svgDownRight in
        if neutral options then
          {| arrow := Some arrow; text := deltaText delta;
             color := "var(--dash-trend-flat)" |}
        else
          {| arrow := Some arrow; text := deltaText delta;
             color := if isPositiveTrend then "var(--dash-trend-up)"
                      else "var(--dash-trend-down)" |}
  | _, _ => noTrend
  end.

Definition calculateTrend (metricHistory : list snapshot)
    (latestMetrics : gmap string jsval) (metricKey : string)
    (options : trendOptions) : trend :=
  if (length metricHistory <? 2)%nat then noTrend
  else
    trendBetween (previousValue metricHistory metricKey)
      (latestMetrics !! metricKey) options.

(** ** makeArrowNode *)

Record arrowNode := {
  className : string;
  style_color : string;
  style_display : string;
  innerHTML : icon;
}.

(** The empty string ([None]) when the trend has no arrow. *)
Definition makeArrowNode (tr : trend) : option arrowNode :=
  match arrow tr with
  | None => None
  | Some a =>
      Some {| className := "trend-arrow";
              style_color := color tr;
              style_display := "inline-flex";
              innerHTML := a |}
  end.

(** ** buildTrendChart: the chart description *)

(** A chart datum [{ date, value }]. *)
Record point := {
  point_date : Date.t;
  point_value : Qc;
}.

(** A tick format handed to the plotting library: a function, or a format
    specifier string such as ["d"]. *)
Inductive tickFormatT :=
| TickFunction (f : Qc → string)
| TickSpecifier (s : string).

Record yAxis := {
  y_label : option string;
  y_grid : bool;
  y_domain : option (Qc * Qc);
  y_tickFormat : tickFormatT;
}.

Record xAxis := {
  x_type : string;
  x_label : option string;
  x_domain : option (Date.t * Date.t);
}.

(** The marks of the plotting library that the chart uses; the channels
    are always [x: "date"] and [y: "value"]. *)
Inductive mark :=
| ruleY (values : list Qc) (stroke : string) (strokeWidth strokeOpacity : Qc)
| dot (data : list point) (fill : string) (fillOpacity r : Qc)
| areaY (data : list point) (y1 : Qc) (fill : string) (fillOpacity : Qc)
        (curve : string)
| lineY (data : list point) (stroke : string)
        (strokeWidth strokeOpacity : Qc) (curve : string)
| tip (data : list point) (title : point → string).

Record plot := {
  height : Z;
  marginTop : Z;
  marginBottom : Z;
  marginLeft : Z;
  marginRight : Z;
  x : xAxis;
  y : yAxis;
  marks : list mark;
}.

(** The card markup: the "No data" card, or the card with the headline
    value, the trend container and the chart. *)
Inductive card :=
| noDataCard (title : string)
| chartCard (title : string) (big : string)
            (trendArrowHtml : option arrowNode) (deltaNode : option string)
            (chart : plot).

Record chartOptions := {
  opt_title : string;
  opt_color : option string;
  opt_suffix : option string;
  opt_yDomain : option (Qc * Qc);
  opt_inverse : bool;
  opt_neutral : bool;
  opt_tickFormat : option (Qc → string);
  opt_valueFormat : option (option jsval → string);
  opt_reverse : bool;
}.

(** [options = {}] apart from the title. *)
Definition defaultOptions (title : string) : chartOptions :=
  {| opt_title := title; opt_color := None; opt_suffix := None;
     opt_yDomain := None; opt_inverse := false; opt_neutral := false;
     opt_tickFormat := None; opt_valueFormat := None;
     opt_reverse := false |}.

(** [metricHistory.filter(e => e.metrics[key] != null)
                  .map(e => ({ date: e.date, value: e.metrics[key] }))],
    as one pass: an entry is kept when its value is not null, and its
    point carries that value.  (The stateful version further down keeps
    the two passes and the objects they create.) *)
Definition projectEntry (metricKey : string) (entry : snapshot)
  : option point :=
  match metrics entry !! metricKey with
  | Some (JNum v) => Some {| point_date := date entry; point_value := v |}
  | _ => None
  end.

Definition projectHistory (metricHistory : list snapshot)
    (metricKey : string) : list point :=
  omap (projectEntry metricKey) metricHistory.

(** [d.value = hi + lo - d.value] *)
Definition reversePoint (lo hi : Qc) (d : point) : point :=
  {| point_date := point_date d;
     point_value := (hi + lo - point_value d)%Qc |}.

(** [Number.isInteger(d) ? d : d.toFixed(2).replace(/\.?0+$/, '')] *)
Definition plainOrTrimmed (d : Qc) : string :=
  if Number.isInteger d then Number.toString d
  else Number.trimZeros (Number.toFixed 2 d).

Definition truthy (s : string) : bool := negb (String.eqb s EmptyString).

(** The stroke widths, opacities and radii of the marks: 1.5, 0.7, 0.6,
    0.1, 2.5 and 3. *)
Definition q3_2 : Qc := Q2Qc (3 # 2).
Definition q7_10 : Qc := Q2Qc (7 # 10).
Definition q6_10 : Qc := Q2Qc (6 # 10).
Definition q1_10 : Qc := Q2Qc (1 # 10).
Definition q5_2 : Qc := Q2Qc (5 # 2).
Definition q3 : Qc := Number.ofZ 3.

Section BuildTrendChart.
Context `{Locale}.

(** The tick format of the vertical axis. *)
Definition yTickFormat (tickFormat : option (Qc → string))
    (suffix : string) (allIntegers : bool) (reverse : bool)
    (yDomain : option (Qc * Qc)) : tickFormatT :=
  let tf :=
    match tickFormat with
    | Some f => TickFunction f
    | None =>
        if truthy suffix then
          TickFunction (λ d, plainOrTrimmed d ++ suffix)
        else if allIntegers then TickSpecifier "d"
        else TickFunction (λ d, plainOrTrimmed d)
    end in
  match reverse, yDomain, tickFormat with
  | true, Some (lo, hi), Some origTickFormat =>
      TickFunction (λ d, origTickFormat (hi + lo - d)%Qc)
  | _, _, _ => tf
  end.

(** The display function for tooltip values. *)
Definition displayValue (reverse : bool) (yDomain : option (Qc * Qc))
    (valueFormat : option (option jsval → string)) (suffix : string)
    : Qc → string :=
  match reverse, yDomain, valueFormat with
  | true, Some (lo, hi), Some valueFormat =>
      λ v, valueFormat (Some (JNum (hi + lo - v)%Qc))
  | _, _, _ => λ v, formatMetric (Some (JNum v)) suffix
  end.

(** The time domain of a single-point chart. *)
Definition singlePointDomain (pointDate : Date.t) : Date.t * Date.t :=
  let firstDay := Date.copy pointDate in
  let lastDay := Date.copy pointDate in
  let firstDay := Date.setDate firstDay (Date.getDate firstDay - 6) in
  (firstDay, lastDay).

(** The part of buildTrendChart after the chart data is prepared: the
    axis options, the marks, the trend texts and the card. *)
Definition assembleCard (options : chartOptions) (historyLength : nat)
    (latestValue : option jsval) (metricTrend : trend)
    (allIntegers isSinglePoint : bool) (chartData : list point)
    (xDomain : option (Date.t * Date.t)) : card :=
  let title := opt_title options in
  let color := default "var(--dash-trend-flat)" (opt_color options) in
  let suffix := default EmptyString (opt_suffix options) in
  let yDomain := opt_yDomain options in
  let tickFormat := opt_tickFormat options in
  let valueFormat := opt_valueFormat options in
  let reverse := opt_reverse options in
  let yAxisOptions :=
    {| y_label := None; y_grid := true; y_domain := yDomain;
       y_tickFormat :=
         yTickFormat tickFormat suffix allIntegers reverse yDomain |} in
  let xAxisOptions :=
    {| x_type := "time"; x_label := None; x_domain := xDomain |} in
  let areaBaseline :=
    match yDomain with Some (lo, _) => lo | None => 0%Qc end in
  let displayValue := displayValue reverse yDomain valueFormat suffix in
  let trendArrowHtml := makeArrowNode metricTrend in
  let deltaText :=
    if truthy (text metricTrend) then
      text metricTrend ++ suffix ++ " from previous"
    else if (historyLength =? 1)%nat then "No trend"
    else EmptyString in
  let deltaNode := if truthy deltaText then Some deltaText else None in
  let marks :=
    if isSinglePoint then
      [ ruleY (point_value <$> take 1 chartData) color q3_2 q7_10;
        dot chartData color q6_10 q3 ]
    else
      [ areaY chartData areaBaseline color q1_10 "monotone-x";
        lineY chartData color q3_2 q7_10 "monotone-x";
        dot chartData color q6_10 q5_2;
        tip chartData
          (λ point, toLocaleDateString (point_date point) ++ ": "
                    ++ displayValue (point_value point)) ] in
  let chart :=
    {| height := 180; marginTop := 8; marginBottom := 24;
       marginLeft := 40; marginRight := 12;
       x := xAxisOptions; y := yAxisOptions; marks := marks |} in
  chartCard title
    (match valueFormat with
     | Some valueFormat => valueFormat latestValue
     | None => formatMetric latestValue suffix
     end)
    trendArrowHtml deltaNode chart.

Definition buildTrendChart (metricHistory : list snapshot)
    (latestMetrics : gmap string jsval) (metricKey : string)
    (options : chartOptions) : card :=
  let chartData := projectHistory metricHistory metricKey in
  if (length chartData =? 0)%nat then noDataCard (opt_title options)
  else
    let allIntegers :=
      forallb (λ d, Number.isInteger (point_value d)) chartData in
    let isSinglePoint := (length chartData =? 1)%nat in
    let chartData :=
      match opt_reverse options, opt_yDomain options with
      | true, Some (lo, hi) => map (reversePoint lo hi) chartData
      | _, _ => chartData
      end in
    let xDomain :=
      if isSinglePoint then
        singlePointDomain ∘ point_date <$> head chartData
      else None in
    let metricTrend :=
      calculateTrend metricHistory latestMetrics metricKey
        {| inverse := opt_inverse options;
           neutral := opt_neutral options |} in
    assembleCard options (length metricHistory)
      (latestMetrics !! metricKey) metricTrend allIntegers isSinglePoint
      chartData xDomain.

End BuildTrendChart.

(** ** An en-US host

    Numbers print with grouping commas and at most three fraction digits;
    dates print as month/day/year. *)

Module EnUS.

(** Commas between groups of three digits, counted from the right;
    [n] is the number of digits of [s] still to come. *)
Fixpoint group (s : string) : string :=
  match s with
  | EmptyString => EmptyString
  | String c r =>
      let n := String.length r in
      if (0 <? n)%nat && (n mod 3 =? 0)%nat
      then String c (String "," (group r))
      else String c (group r)
  end.

Definition numberToString (x : Qc) : string :=
  let s := if Number.ltb x 0 then "-" else EmptyString in
  let x := Number.abs x in
  let n := Number.fixedDigits 3 x in
  let frac := Number.toFixed 3 (Q2Qc (n mod 1000 # 1000)) in
  s ++ group (pretty (n / 1000))
    ++ Number.trimZeros (substring 1 4 frac).

Definition dateToString (d : Date.t) : string :=
  pretty (Date.getMonth d + 1) ++ "/" ++ pretty (Date.getDate d)
    ++ "/" ++ pretty (Date.getFullYear d).

End EnUS.

Definition enUS : Locale :=
  {| toLocaleString := EnUS.numberToString;
     toLocaleDateString := EnUS.dateToString |}.

(** ** Observations on a card *)

Definition cardChart (c : card) : option plot :=
  match c with
  | noDataCard _ => None
  | chartCard _ _ _ _ chart => Some chart
  end.

Definition isAreaOrLine (m : mark) : bool :=
  match m with
  | areaY _ _ _ _ _ | lineY _ _ _ _ _ => true
  | _ => false
  end.


(** The tooltip texts of a chart: the title of each tip mark at each of
    its points. *)
Definition tipTexts (ms : list mark) : list string :=
  ms ≫= λ m, match m with
             | tip data title => title <$> data
             | _ => []
             end.

(** The values the chart plots when it is given [chartData]. *)
Definition plotted (options : chartOptions) (chartData : list point)
  : list point :=
  match opt_reverse options, opt_yDomain options with
  | true, Some (lo, hi) => map (reversePoint lo hi) chartData
  | _, _ => chartData
  end.

(** ** The scenarios of the design document *)

Definition entry (day : Z) (metricKey : string) (v : Z) : snapshot :=
  {| date := Date.ofYMD 2024 3 day;
     metrics := {[ metricKey := JNum (Number.ofZ v) ]} |}.

(** [[{date: d1, metrics: {x: 10}}, {date: d2, metrics: {x: 15}}]] *)
Definition scenarioHistory : list snapshot :=
  [ entry 1 "x" 10; entry 2 "x" 15 ].

(** [{x: 15}] *)
Definition scenarioLatest : gmap string jsval :=
  {[ "x" := JNum (Number.ofZ 15) ]}.


(** [options] with [reverse] set to [b]. *)
Definition withReverse (b : bool) (options : chartOptions) : chartOptions :=
  {| opt_title := opt_title options; opt_color := opt_color options;
     opt_suffix := opt_suffix options; opt_yDomain := opt_yDomain options;
     opt_inverse := opt_inverse options; opt_neutral := opt_neutral options;
     opt_tickFormat := opt_tickFormat options;
     opt_valueFormat := opt_valueFormat options; opt_reverse := b |}.

(** A 1-5 rating chart drawn upside down, with the default formatters. *)
Definition ratingOptions : chartOptions :=
  {| opt_title := "Rating"; opt_color := None; opt_suffix := None;
     opt_yDomain := Some (Number.ofZ 1, Number.ofZ 5);
     opt_inverse := true; opt_neutral := false;
     opt_tickFormat := None; opt_valueFormat := None;
     opt_reverse := true |}.

Definition ratingHistory : list snapshot :=
  [ entry 1 "y" 1; entry 2 "y" 2 ].

Definition ratingLatest : gmap string jsval :=
  {[ "y" := JNum (Number.ofZ 2) ]}.

(** The letters A to E for the ratings 1 to 5. *)
Definition ratingLetter (v : option jsval) : string :=
  match v with
  | Some (JNum x) =>
      match Qnum x with
      | 1 => "A" | 2 => "B" | 3 => "C" | 4 => "D" | _ => "E"
      end
  | _ => "-"
  end.

(** [options] with [valueFormat] set to [f]. *)
Definition withValueFormat (f : option jsval → string)
    (options : chartOptions) : chartOptions :=
  {| opt_title := opt_title options; opt_color := opt_color options;
     opt_suffix := opt_suffix options; opt_yDomain := opt_yDomain options;
     opt_inverse := opt_inverse options; opt_neutral := opt_neutral options;
     opt_tickFormat := opt_tickFormat options;
     opt_valueFormat := Some f; opt_reverse := opt_reverse options |}.

(** ** The object store

    The history array, its entries, their metrics objects and their dates
    are objects that the caller keeps; the functions receive references.
    The stateful versions below follow the source statement by statement:
    which objects are read, which are created and which are written. *)

Module Store.

Definition loc := positive.

Inductive object :=
| ObjDate (tv : Z)
| ObjMetrics (m : gmap string jsval)
| ObjEntry (date metrics : loc)
| ObjPoint (date : loc) (value : Qc)
| ObjArray (elems : list loc).

(** A computation reads and writes the store, or throws ([None]). *)
Definition M (A : Type) : Type :=
  gmap loc object → option (A * gmap loc object).

Definition ret {A} (a : A) : M A := λ σ, Some (a, σ).

Definition bind {A B} (m : M A) (k : A → M B) : M B :=
  λ σ, match m σ with
       | Some (a, σ') => k a σ'
       | None => None
       end.

Definition throw {A} : M A := λ _, None.

(** A new object, at a location the store does not use. *)
Definition alloc (o : object) : M loc :=
  λ σ, let l := fresh (dom σ) in Some (l, <[l := o]> σ).

Definition load (l : loc) : M object :=
  λ σ, match σ !! l with
       | Some o => Some (o, σ)
       | None => None
       end.

Definition store (l : loc) (o : object) : M unit :=
  λ σ, Some (tt, <[l := o]> σ).

Fixpoint forEach {A B} (f : A → M B) (l : list A) : M (list B) :=
  match l with
  | [] => ret []
  | a :: l =>
      bind (f a) (λ b, bind (forEach f l) (λ bs, ret (b :: bs)))
  end.

End Store.

Notation "'let*' x := m 'in' k" :=
  (Store.bind m (λ x, k))
  (at level 10, x name, m at level 100, k at level 200, only parsing).

Notation "'let*' ( x , y ) := m 'in' k" :=
  (Store.bind m (λ '(x, y), k))
  (at level 10, x name, y name, m at level 100, k at level 200,
   only parsing).

Import Store.

Definition loadDate (l : loc) : M Z :=
  let* o := load l in
  match o with ObjDate tv => ret tv | _ => throw end.

Definition loadMetrics (l : loc) : M (gmap string jsval) :=
  let* o := load l in
  match o with ObjMetrics m => ret m | _ => throw end.

Definition loadEntry (l : loc) : M (loc * loc) :=
  let* o := load l in
  match o with ObjEntry d m => ret (d, m) | _ => throw end.

Definition loadPoint (l : loc) : M (loc * Qc) :=
  let* o := load l in
  match o with ObjPoint d v => ret (d, v) | _ => throw end.

Definition loadArray (l : loc) : M (list loc) :=
  let* o := load l in
  match o with ObjArray es => ret es | _ => throw end.

(** [entry.metrics[metricKey]] *)
Definition entryMetric (metricKey : string) (entry : loc)
  : M (option jsval) :=
  let* (_, m) := loadEntry entry in
  let* ms := loadMetrics m in
  ret (ms !! metricKey).

(** [.filter((entry) => entry.metrics[metricKey] != null)] *)
Fixpoint filterEntries (metricKey : string) (entries : list loc)
  : M (list loc) :=
  match entries with
  | [] => ret []
  | entry :: entries =>
      let* v := entryMetric metricKey entry in
      let* rest := filterEntries metricKey entries in
      ret (if isNullish v then rest else entry :: rest)
  end.

(** [(entry) => ({ date: entry.date, value: entry.metrics[metricKey] })]:
    a new point object that shares the entry's date object. *)
Definition makePoint (metricKey : string) (entry : loc) : M loc :=
  let* (d, m) := loadEntry entry in
  let* ms := loadMetrics m in
  match ms !! metricKey with
  | Some (JNum v) => alloc (ObjPoint d v)
  | _ => throw
  end.

(** [d.value = hi + lo - d.value] *)
Definition reverseInPlace (lo hi : Qc) (d : loc) : M unit :=
  let* (dt, v) := loadPoint d in
  store d (ObjPoint dt (hi + lo - v)%Qc).

(** What the plotting library reads of a datum. *)
Definition readPoint (d : loc) : M point :=
  let* (dt, v) := loadPoint d in
  let* tv := loadDate dt in
  ret {| point_date := tv; point_value := v |}.

Definition calculateTrend_st (metricHistory latestMetrics : loc)
    (metricKey : string) (options : trendOptions) : M trend :=
  let* entries := loadArray metricHistory in
  if (length entries <? 2)%nat then ret noTrend
  else
    let* previousValue :=
      match entries !! (length entries - 2)%nat with
      | Some entry => entryMetric metricKey entry
      | None => ret None
      end in
    let* latest := loadMetrics latestMetrics in
    ret (trendBetween previousValue (latest !! metricKey) options).

Section BuildTrendChartSt.
Context `{Locale}.

(** The time domain of a single-point chart: two new date objects, the
    first moved back six days. *)
Definition singlePointDomain_st (point0 : loc) : M (loc * loc) :=
  let* (pointDate, _) := loadPoint point0 in
  let* tv := loadDate pointDate in
  let* firstDay := alloc (ObjDate tv) in
  let* tv := loadDate pointDate in
  let* lastDay := alloc (ObjDate tv) in
  let* first := loadDate firstDay in
  let* _ := store firstDay
              (ObjDate (Date.setDate first (Date.getDate first - 6))) in
  ret (firstDay, lastDay).

Definition buildTrendChart_st (metricHistory latestMetrics : loc)
    (metricKey : string) (options : chartOptions) : M card :=
  let* entries := loadArray metricHistory in
  let* kept := filterEntries metricKey entries in
  let* filtered := alloc (ObjArray kept) in
  let* kept := loadArray filtered in
  let* points := forEach (makePoint metricKey) kept in
  let* chartData := alloc (ObjArray points) in
  let* data := loadArray chartData in
  if (length data =? 0)%nat then ret (noDataCard (opt_title options))
  else
    let* values := forEach (λ d, let* (_, v) := loadPoint d in ret v)
                     data in
    let allIntegers := forallb Number.isInteger values in
    let isSinglePoint := (length data =? 1)%nat in
    let* _ :=
      match opt_reverse options, opt_yDomain options with
      | true, Some (lo, hi) => forEach (reverseInPlace lo hi) data
      | _, _ => ret []
      end in
    let* xDomain :=
      if isSinglePoint then
        match head data with
        | Some point0 =>
            let* dom := singlePointDomain_st point0 in ret (Some dom)
        | None => throw
        end
      else ret None in
    let* metricTrend :=
      calculateTrend_st metricHistory latestMetrics metricKey
        {| inverse := opt_inverse options;
           neutral := opt_neutral options |} in
    let* history := loadArray metricHistory in
    let* latest := loadMetrics latestMetrics in
    (* the plotting library reads the data and the domain *)
    let* plottedData := forEach readPoint data in
    let* xDomain :=
      match xDomain with
      | Some (firstDay, lastDay) =>
          let* first := loadDate firstDay in
          let* last := loadDate lastDay in
          ret (Some (first, last))
      | None => ret None
      end in
    ret (assembleCard options (length history) (latest !! metricKey)
           metricTrend allIntegers isSinglePoint plottedData xDomain).

End BuildTrendChartSt.

(** *** Reading the caller's objects *)

Definition snapshotAt (σ : gmap loc object) (entry : loc)
  : option snapshot :=
  match σ !! entry with
  | Some (ObjEntry d m) =>
      match σ !! d, σ !! m with
      | Some (ObjDate tv), Some (ObjMetrics ms) =>
          Some {| date := tv; metrics := ms |}
      | _, _ => None
      end
  | _ => None
  end.

Definition historyAt (σ : gmap loc object) (metricHistory : loc)
  : option (list snapshot) :=
  match σ !! metricHistory with
  | Some (ObjArray entries) => mapM (snapshotAt σ) entries
  | _ => None
  end.

Definition metricsAt (σ : gmap loc object) (latestMetrics : loc)
  : option (gmap string jsval) :=
  match σ !! latestMetrics with
  | Some (ObjMetrics ms) => Some ms
  | _ => None
  end.

(** A store with the scenario history at location 7 and its latest
    metrics at location 8. *)
Definition scenarioStore : gmap loc object :=
  {[ 1%positive := ObjDate (Date.ofYMD 2024 3 1);
     2%positive := ObjMetrics {[ "x" := JNum (Number.ofZ 10) ]};
     3%positive := ObjEntry 1%positive 2%positive;
     4%positive := ObjDate (Date.ofYMD 2024 3 2);
     5%positive := ObjMetrics {[ "x" := JNum (Number.ofZ 15) ]};
     6%positive := ObjEntry 4%positive 5%positive;
     7%positive := ObjArray [3%positive; 6%positive];
     8%positive := ObjMetrics {[ "x" := JNum (Number.ofZ 15) ]} ]}.

(** The point object at [l] holds the point [p]; its date is a date
    object of the caller's store [σ0]. *)
Definition pointAt (σ0 σ : gmap loc object) (l : loc) (p : point) : Prop :=
  ∃ d, σ !! l = Some (ObjPoint d (point_value p))
       ∧ σ0 !! d = Some (ObjDate (point_date p)).

(** The entry has a value for the key. *)
Definition hasValue (metricKey : string) (s : snapshot) : Prop :=
  ∃ v, metrics s !! metricKey = Some (JNum v).
(** ** More observations on a card *)

Definition cardBig (c : card) : option string :=
  match c with
  | noDataCard _ => None
  | chartCard _ big _ _ _ => Some big
  end.

Definition cardArrow (c : card) : option arrowNode :=
  match c with
  | noDataCard _ => None
  | chartCard _ _ trendArrowHtml _ _ => trendArrowHtml
  end.

Definition cardDelta (c : card) : option string :=
  match c with
  | noDataCard _ => None
  | chartCard _ _ _ deltaNode _ => deltaNode
  end.

(** Whether a string holds a decimal point. *)
Fixpoint hasDot (s : string) : bool :=
  match s with
  | EmptyString => false
  | String c r => Ascii.eqb c "." || hasDot r
  end.

(** ** percentBar *)

Module PercentBar.

Definition hundred : Qc := Number.ofZ 100.

(** [Math.max(0, x)] *)
Definition max0 (x : Qc) : Qc := if Number.ltb x 0 then 0%Qc else x.

(** [Math.min(100, x)] *)
Definition min100 (x : Qc) : Qc := if Number.ltb hundred x then hundred else x.

(** [Math.min(100, Math.max(0, (value / max) * 100))].  Division by a
    zero [max] gives an infinity of the sign of [value], which the clamps
    bring to 100 or 0, or NaN ([None]) for [0 / 0], which they keep. *)
Definition percent (value max : Qc) : option Qc :=
  if Number.eqb max 0 then
    if Number.ltb 0 value then Some hundred
    else if Number.ltb value 0 then Some 0%Qc
    else None
  else Some (min100 (max0 (value / max * hundred)%Qc)).

(** [color || (pct >= 80 ? green : pct >= 50 ? yellow : red)]; every
    comparison with NaN is false. *)
Definition barColor (color : option string) (pct : option Qc) : string :=
  let byLevel :=
    match pct with
    | Some p =>
        if negb (Number.ltb p (Number.ofZ 80)) then "#22c55e"
        else if negb (Number.ltb p (Number.ofZ 50)) then "#eab308"
        else "#ef4444"
    | None => "#ef4444"
    end in
  match color with
  | Some c => if truthy c then c else byLevel
  | None => byLevel
  end.

(** The track and the fill of the bar: the track's height and corner
    radius in pixels, the fill's width in percent and its background. *)
Record node := {
  trackHeight : Qc;
  radius : Qc;
  fillWidth : option Qc;
  fillBackground : string;
}.

(** [percentBar(value, {max = 100, height = 8, color} = {})] *)
Definition percentBar (value : Qc) (max height : option Qc)
    (color : option string) : node :=
  let max := default hundred max in
  let height := default (Number.ofZ 8) height in
  let pct := percent value max in
  let barColor := barColor color pct in
  {| trackHeight := height;
     radius := (height / Number.ofZ 2)%Qc;
     fillWidth := pct;
     fillBackground := barColor |}.

End PercentBar.

(** ** segmentBar *)

Module SegmentBar.

(** A segment config [{ value, color, className, label }]; a missing or
    null value, class or label is [None]. *)
Record segment := {
  seg_value : option Qc;
  seg_color : string;
  seg_className : option string;
  seg_label : option string;
}.

(** What a segment shows inside: nothing, its label, or its value. *)
Inductive content :=
| NoContent
| LabelText (s : string)
| ValueText (v : Qc).

Record segmentNode := {
  sn_class : string;
  sn_width : Qc;
  sn_background : string;
  sn_content : content;
}.

(** The empty string, the muted fallback text, or the bar. *)
Inductive result :=
| Nothing
| EmptyText (emptyText : string)
| Bar (barClass : string) (children : list segmentNode).

(** [segments.reduce((s, seg) => s + (seg.value || 0), 0)] *)
Definition total (segments : list segment) : Qc :=
  foldl (λ s seg, (s + default 0%Qc (seg_value seg))%Qc) 0%Qc segments.

(** The child of a segment that passes [seg.value > 0]. *)
Definition child (thin : bool) (total : Qc) (seg : segment)
  : option segmentNode :=
  match seg_value seg with
  | Some value =>
      if Number.ltb 0 value then
        let pct := (value / total * PercentBar.hundred)%Qc in
        let cls :=
          match seg_className seg with
          | Some c => if truthy c then "segment " ++ c else "segment"
          | None => "segment"
          end in
        Some {| sn_class := cls; sn_width := pct;
                sn_background := seg_color seg;
                sn_content :=
                  if thin then NoContent
                  else match seg_label seg with
                       | Some l => LabelText l
                       | None => ValueText value
                       end |}
      else None
  | None => None
  end.

(** [segmentBar(segments, { thin = false, emptyText = '' } = {})] *)
Definition segmentBar (segments : list segment) (thin : bool)
    (emptyText : string) : result :=
  let total := total segments in
  if Number.eqb total 0 && truthy emptyText then EmptyText emptyText
  else if Number.eqb total 0 then Nothing
  else
    let barClass :=
      if thin then "dash-segment-bar thin" else "dash-segment-bar" in
    Bar barClass (omap (child thin total) segments).

End SegmentBar.



(** Three segments with the values 3, 1 and none. *)
Definition exampleSegments : list SegmentBar.segment :=
  [ {| SegmentBar.seg_value := Some (Number.ofZ 3);
       SegmentBar.seg_color := "#3178c6";
       SegmentBar.seg_className := None;
       SegmentBar.seg_label := Some "TypeScript" |};
    {| SegmentBar.seg_value := Some (Number.ofZ 1);
       SegmentBar.seg_color := "#f1e05a";
       SegmentBar.seg_className := Some "minor";
       SegmentBar.seg_label := None |};
    {| SegmentBar.seg_value := None;
       SegmentBar.seg_color := "#cccccc";
       SegmentBar.seg_className := None;
       SegmentBar.seg_label := Some "Other" |} ].

(** ** summaryCard and metricGrid *)

Module SummaryCard.

(** The [highlight] option: false, true, or a string. *)
Inductive highlightT :=
| HFalse
| HTrue
| HString (s : string).

Definition highlightTruthy (h : highlightT) : bool :=
  match h with
  | HFalse => false
  | HTrue => true
  | HString s => truthy s
  end.

Record badgeT := {
  badge_text : string;
  badge_background : string;
}.

(** The options of summaryCard, with the defaults filled in; [child] is
    the markup of the extra node. *)
Record options := {
  o_label : string;
  o_value : option jsval;
  o_suffix : string;
  o_colorClass : string;
  o_highlight : highlightT;
  o_trend : option trend;
  o_child : option string;
  o_badge : option badgeT;
  o_centered : bool;
}.

(** The trend line: the arrow node and the text after it. *)
Record trendLine := {
  tl_arrow : option arrowNode;
  tl_text : string;
}.

Inductive valueDisplayT :=
| RatingBadge (background text : string)
| BigValue (colorClass text : string).

Record node := {
  gradientClass : option string;
  cardClass : string;
  heading : string;
  valueDisplay : valueDisplayT;
  trendHtml : option trendLine;
  childNode : option string;
}.

Section WithLocale.
Context `{Locale}.

Definition summaryCard (o : options) : node :=
  let trendHtml :=
    match o_trend o with
    | Some trend =>
        if truthy (text trend) then
          Some {| tl_arrow := makeArrowNode trend;
                  tl_text :=
                    text trend
                      ++ (if truthy (o_suffix o) then o_suffix o
                          else EmptyString)
                      ++ " from previous" |}
        else None
    | None => None
    end in
  let valueDisplay :=
    match o_badge o with
    | Some badge =>
        RatingBadge (badge_background badge) (badge_text badge)
    | None =>
        BigValue (o_colorClass o) (formatMetric (o_value o) (o_suffix o))
    end in
  let cardClass :=
    if o_centered o then "card summary-card centered"
    else "card summary-card" in
  {| gradientClass :=
       if negb (highlightTruthy (o_highlight o)) then None
       else match o_highlight o with
            | HString "secondary" => Some "dash-gradient-card-secondary"
            | _ => Some "dash-gradient-card-primary"
            end;
     cardClass := cardClass;
     heading := o_label o;
     valueDisplay := valueDisplay;
     trendHtml := trendHtml;
     childNode := o_child o |}.

End WithLocale.

End SummaryCard.

Module MetricGrid.

(** A metric config; every field but the key and the label may be
    missing. *)
Record metric := {
  m_key : string;
  m_label : string;
  m_suffix : option string;
  m_highlight : option SummaryCard.highlightT;
  m_colorClass : option string;
  m_inverse : option bool;
  m_neutral : option bool;
  m_child : option string;
  m_badge : option SummaryCard.badgeT;
}.

Record gridOptions := {
  g_cols : Z;
  g_sectionIndex : Z;
  g_sectionTitle : string;
  g_centered : bool;
}.

Record node := {
  sectionIndex : Z;
  sectionTitle : option string;
  cols : Z;
  cards : list SummaryCard.node;
}.

(** [x || false], [x || ''] for an option that may be missing. *)
Definition orFalse (b : option bool) : bool := default false b.

Definition orEmpty (s : option string) : string := default EmptyString s.

Definition orHFalse (h : option SummaryCard.highlightT)
  : SummaryCard.highlightT :=
  match h with
  | Some h => if SummaryCard.highlightTruthy h then h else SummaryCard.HFalse
  | None => SummaryCard.HFalse
  end.

Section WithLocale.
Context `{Locale}.

(** The body of the loop: no card when the latest value is null or
    missing. *)
Definition cardFor (latestMetrics : gmap string jsval)
    (metricHistory : option (list snapshot)) (centered : bool)
    (metric : metric) : option SummaryCard.node :=
  let value := latestMetrics !! m_key metric in
  if isNullish value then None
  else
    let trend :=
      match metricHistory with
      | Some metricHistory =>
          Some (calculateTrend metricHistory latestMetrics (m_key metric)
                  {| inverse := orFalse (m_inverse metric);
                     neutral := orFalse (m_neutral metric) |})
      | None => None
      end in
    Some (SummaryCard.summaryCard
            {| SummaryCard.o_label := m_label metric;
               SummaryCard.o_value := value;
               SummaryCard.o_suffix := orEmpty (m_suffix metric);
               SummaryCard.o_colorClass := orEmpty (m_colorClass metric);
               SummaryCard.o_highlight := orHFalse (m_highlight metric);
               SummaryCard.o_trend := trend;
               SummaryCard.o_child := m_child metric;
               SummaryCard.o_badge := m_badge metric;
               SummaryCard.o_centered := centered |}).

(** [metricGrid(metrics, latestMetrics, metricHistory, options)]; [None]
    is the empty string. *)
Definition metricGrid (metrics : list metric)
    (latestMetrics : gmap string jsval)
    (metricHistory : option (list snapshot)) (o : gridOptions)
  : option node :=
  let cards :=
    omap (cardFor latestMetrics metricHistory (g_centered o)) metrics in
  if (length cards =? 0)%nat then None
  else
    Some {| sectionIndex := g_sectionIndex o;
            sectionTitle :=
              if truthy (g_sectionTitle o) then Some (g_sectionTitle o)
              else None;
            cols := g_cols o;
            cards := cards |}.

End WithLocale.

End MetricGrid.

(** A metric config for the key of the scenario, shown with a percent
    sign. *)
Definition coverageMetric : MetricGrid.metric :=
  {| MetricGrid.m_key := "x"; MetricGrid.m_label := "Coverage";
     MetricGrid.m_suffix := Some "%"; MetricGrid.m_highlight := None;
     MetricGrid.m_colorClass := None; MetricGrid.m_inverse := None;
     MetricGrid.m_neutral := None; MetricGrid.m_child := None;
     MetricGrid.m_badge := None |}.

(** A metric config for a key the scenario does not have. *)
Definition bugsMetric : MetricGrid.metric :=
  {| MetricGrid.m_key := "bugs"; MetricGrid.m_label := "Bugs";
     MetricGrid.m_suffix := None; MetricGrid.m_highlight := None;
     MetricGrid.m_colorClass := None; MetricGrid.m_inverse := None;
     MetricGrid.m_neutral := None; MetricGrid.m_child := None;
     MetricGrid.m_badge := None |}.

Definition exampleGridOptions : MetricGrid.gridOptions :=
  {| MetricGrid.g_cols := 3; MetricGrid.g_sectionIndex := 0;
     MetricGrid.g_sectionTitle := EmptyString;
     MetricGrid.g_centered := false |}.

(** ** filterToggle and filterRow

    A toggle button is the part of the DOM element that the code reads
    and writes: whether its class list holds "active", and the three
    style properties.  A click is the run of the button's listener. *)

Module FilterRow.

(** A tag config [{ label, count, color, bgAlpha, active }]; [active] may
    be missing. *)
Record tagConfig := {
  tag_label : string;
  tag_count : Z;
  tag_color : string;
  tag_bgAlpha : string;
  tag_active : option bool;
}.

Record button := {
  btn_label : string;
  btn_count : Z;
  btn_active : bool;
  btn_borderColor : string;
  btn_background : string;
  btn_color : string;
}.

Definition applyActive (color bgAlpha : string) (el : button) : button :=
  {| btn_label := btn_label el; btn_count := btn_count el;
     btn_active := btn_active el;
     btn_borderColor := color; btn_background := bgAlpha;
     btn_color := color |}.

Definition applyInactive (el : button) : button :=
  {| btn_label := btn_label el; btn_count := btn_count el;
     btn_active := btn_active el;
     btn_borderColor := EmptyString; btn_background := EmptyString;
     btn_color := EmptyString |}.

(** [classList.toggle], [classList.add] and [classList.remove] of
    "active". *)
Definition setActive (active : bool) (el : button) : button :=
  {| btn_label := btn_label el; btn_count := btn_count el;
     btn_active := active;
     btn_borderColor := btn_borderColor el;
     btn_background := btn_background el; btn_color := btn_color el |}.

(** [filterToggle({ label, count, color, bgAlpha, active = true })]: the
    new button. *)
Definition filterToggle (label : string) (count : Z)
    (color bgAlpha : string) (active : bool) : button :=
  let btn :=
    {| btn_label := label; btn_count := count; btn_active := active;
       btn_borderColor := EmptyString; btn_background := EmptyString;
       btn_color := EmptyString |} in
  if active then applyActive color bgAlpha btn else btn.

(** The click listener of a toggle: the button after the click and the
    state passed to [onToggle]. *)
Definition click (color bgAlpha : string) (btn : button) : button * bool :=
  let isActive := negb (btn_active btn) in
  let btn := setActive isActive btn in
  (if isActive then applyActive color bgAlpha btn else applyInactive btn,
   isActive).

(** [cfg.active !== false] *)
Definition initiallyActive (cfg : tagConfig) : bool :=
  match tag_active cfg with
  | Some false => false
  | _ => true
  end.

(** The buttons of [filterRow(tagConfigs, ...)]. *)
Definition filterRow (tagConfigs : list tagConfig) : list button :=
  map (λ cfg, filterToggle (tag_label cfg) (tag_count cfg) (tag_color cfg)
                (tag_bgAlpha cfg) (initiallyActive cfg)) tagConfigs.

(** The body of [setAll]'s loop. *)
Definition setOne (active : bool) (cfg : tagConfig) (btn : button)
  : button :=
  if active then
    applyActive (tag_color cfg) (tag_bgAlpha cfg) (setActive true btn)
  else applyInactive (setActive false btn).

(** [setAll(active)]: button [i] with config [i], for every button. *)
Fixpoint setAll (active : bool) (tagConfigs : list tagConfig)
    (buttons : list button) : list button :=
  match buttons, tagConfigs with
  | btn :: buttons, cfg :: tagConfigs =>
      setOne active cfg btn :: setAll active tagConfigs buttons
  | _, _ => buttons
  end.

(** What happens to a row: the user clicks button [i], or the caller
    runs [setAll]. *)
Inductive action :=
| Click (i : nat)
| SetAll (active : bool).

(** The row's buttons and the calls of the caller's [onToggle] so far,
    oldest first. *)
Record rowState := {
  buttons : list button;
  calls : list (string * bool);
}.

Definition step (tagConfigs : list tagConfig) (hasOnToggle : bool)
    (st : rowState) (a : action) : rowState :=
  match a with
  | Click i =>
      match buttons st !! i, tagConfigs !! i with
      | Some btn, Some cfg =>
          let '(btn, isActive) :=
            click (tag_color cfg) (tag_bgAlpha cfg) btn in
          {| buttons := <[i := btn]> (buttons st);
             calls :=
               if hasOnToggle
               then calls st ++ [(tag_label cfg, isActive)]
               else calls st |}
      | _, _ => st
      end
  | SetAll active =>
      {| buttons := setAll active tagConfigs (buttons st);
         calls := calls st |}
  end.

Definition run (tagConfigs : list tagConfig) (hasOnToggle : bool)
    (actions : list action) : rowState :=
  foldl (step tagConfigs hasOnToggle)
    {| buttons := filterRow tagConfigs; calls := [] |} actions.

(** The style a button of [cfg] has to carry when it is active or not. *)
Definition styled (cfg : tagConfig) (btn : button) : Prop :=
  btn_label btn = tag_label cfg
  ∧ btn_count btn = tag_count cfg
  ∧ (btn_borderColor btn, btn_background btn, btn_color btn)
    = if btn_active btn
      then (tag_color cfg, tag_bgAlpha cfg, tag_color cfg)
      else (EmptyString, EmptyString, EmptyString).

End FilterRow.

(** Two tags: the first starts active, the second does not. *)
Definition exampleTags : list FilterRow.tagConfig :=
  [ {| FilterRow.tag_label := "bug"; FilterRow.tag_count := 3;
       FilterRow.tag_color := "#ef4444";
       FilterRow.tag_bgAlpha := "rgba(239,68,68,0.1)";
       FilterRow.tag_active := None |};
    {| FilterRow.tag_label := "smell"; FilterRow.tag_count := 7;
       FilterRow.tag_color := "#eab308";
       FilterRow.tag_bgAlpha := "rgba(234,179,8,0.1)";
       FilterRow.tag_active := Some false |} ].

(** ** dataTable *)

Module DataTable.

(** A column [{ key, label, format }]; [format] may be missing. *)
Record column (F : Type) := {
  col_key : string;
  col_label : string;
  col_format : option F;
}.

Arguments col_key {F} _.
Arguments col_label {F} _.
Arguments col_format {F} _.

(** The options handed to the table widget. *)
Record tableOptions (F : Type) := {
  t_columns : list string;
  t_header : gmap string string;
  t_format : gmap string F;
  t_sort : option string;
  t_rows : Z;
}.

Arguments t_columns {F} _.
Arguments t_header {F} _.
Arguments t_format {F} _.
Arguments t_sort {F} _.
Arguments t_rows {F} _.

(** [Object.fromEntries]: a later entry replaces an earlier one of the
    same key. *)
Definition fromEntries {V : Type} (entries : list (string * V))
  : gmap string V :=
  foldl (λ m e, <[e.1 := e.2]> m) ∅ entries.

(** [dataTable(data, columns, { sortable = true, pageSize = 25 } = {})]:
    the options object; the data is handed on as it is. *)
Definition dataTable {F : Type} (columns : list (column F))
    (sortable : option bool) (pageSize : option Z) : tableOptions F :=
  let sortable := default true sortable in
  let pageSize := default 25 pageSize in
  {| t_columns := map col_key columns;
     t_header := fromEntries (map (λ c, (col_key c, col_label c)) columns);
     t_format :=
       fromEntries
         (omap (λ c, match col_format c with
                     | Some f => Some (col_key c, f)
                     | None => None
                     end) columns);
     t_sort := if sortable then col_key <$> head columns else None;
     t_rows := pageSize |}.

End DataTable.

(** Two columns, the second with a formatter (here a suffix). *)
Definition exampleColumns : list (DataTable.column string) :=
  [ {| DataTable.col_key := "name"; DataTable.col_label := "Name";
       DataTable.col_format := None |};
    {| DataTable.col_key := "size"; DataTable.col_label := "Size";
       DataTable.col_format := Some " kB" |} ].

(** * Properties *)

(** ** Numbers *)

Lemma ltb_lt (x y : Qc) : Number.ltb x y = true ↔ (x < y)%Qc.
Proof. unfold Number.ltb. apply bool_decide_eq_true. Qed.

Lemma ltb_ge (x y : Qc) : Number.ltb x y = false ↔ (y ≤ x)%Qc.
Proof.
  unfold Number.ltb. rewrite bool_decide_eq_false. symmetry.
  apply Qcle_ngt.
Qed.

Lemma eqb_eq (x y : Qc) : Number.eqb x y = true ↔ x = y.
Proof. unfold Number.eqb. apply bool_decide_eq_true. Qed.

Lemma eqb_neq (x y : Qc) : Number.eqb x y = false ↔ x ≠ y.
Proof. unfold Number.eqb. apply bool_decide_eq_false. Qed.

(** A non-zero number is on exactly one side of zero. *)
Lemma ltb_0_flip (x : Qc) :
  x ≠ 0%Qc → Number.ltb x 0 = negb (Number.ltb 0 x).
Proof.
  intros Hx. destruct (Number.ltb 0 x) eqn:Hpos; simpl.
  - apply ltb_ge. apply Qclt_le_weak. by apply ltb_lt.
  - apply ltb_lt. apply ltb_ge in Hpos.
    destruct (Qcle_lt_or_eq _ _ Hpos); done.
Qed.

Lemma ltb_irrefl (x : Qc) : Number.ltb x x = false.
Proof. apply ltb_ge. apply Qcle_refl. Qed.





(** ** calculateTrend *)

Section Trend.
Variables (metricHistory : list snapshot)
          (latestMetrics : gmap string jsval) (metricKey : string).

(** The result when both comparison values are present. *)
Lemma calculateTrend_present (options : trendOptions) (p c : Qc) :
  (2 ≤ length metricHistory)%nat →
  previousValue metricHistory metricKey = Some (JNum p) →
  latestMetrics !! metricKey = Some (JNum c) →
  calculateTrend metricHistory latestMetrics metricKey options =
    let delta := (c - p)%Qc in
    if Number.eqb delta 0 then
      {| text := deltaText delta; arrow := Some svgFlat;
         color := "var(--dash-trend-flat)" |}
    else
      {| text := deltaText delta;
         arrow := Some (if Number.ltb 0 delta then svgUpRight
                        else svgDownRight);
         color :=
           if neutral options then "var(--dash-trend-flat)"
           else if (if inverse options then Number.ltb delta 0
                    else Number.ltb 0 delta)
                then "var(--dash-trend-up)"
                else "var(--dash-trend-down)" |}.
Proof.
  intros Hlen Hp Hc. unfold calculateTrend, trendBetween.
  destruct (Nat.ltb_spec (length metricHistory) 2) as [?|_]; [lia|].
  rewrite Hp, Hc. cbn zeta.
  destruct (Number.eqb _ _); [done|].
  by destruct (neutral options).
Qed.

Lemma calculateTrend_arrow_None (options : trendOptions) :
  arrow (calculateTrend metricHistory latestMetrics metricKey options)
    = None →
  calculateTrend metricHistory latestMetrics metricKey options = noTrend.
Proof.
  unfold calculateTrend, trendBetween.
  repeat case_match; simpl; congruence.
Qed.

End Trend.

(** C3.  calculateTrend returns the "no trend" descriptor exactly when the
    history has fewer than two entries or one of the two comparison values
    (the metric of the second-to-last entry, the metric of the latest
    metrics) is null or missing.  Zero is a present value: with a zero on
    either side the result carries an arrow and is not "no trend". *)
Theorem calculateTrend_noTrend_iff (metricHistory : list snapshot)
    (latestMetrics : gmap string jsval) (metricKey : string)
    (options : trendOptions) :
  (calculateTrend metricHistory latestMetrics metricKey options = noTrend
   ↔ (length metricHistory < 2)%nat
     ∨ isNullish (previousValue metricHistory metricKey) = true
     ∨ isNullish (latestMetrics !! metricKey) = true)
  ∧ isNullish (Some (JNum 0%Qc)) = false
  ∧ ∀ p c : Qc,
      p = 0%Qc ∨ c = 0%Qc →
      (2 ≤ length metricHistory)%nat →
      previousValue metricHistory metricKey = Some (JNum p) →
      latestMetrics !! metricKey = Some (JNum c) →
      calculateTrend metricHistory latestMetrics metricKey options ≠ noTrend
      ∧ is_Some
          (arrow
             (calculateTrend metricHistory latestMetrics metricKey options)).
Proof.
  split; [split|split; [done|]].
  - intros Hno.
    destruct (Nat.ltb_spec (length metricHistory) 2) as [?|Hlen]; [by left|].
    right.
    destruct (previousValue metricHistory metricKey) as [[|p]|] eqn:Hp;
      [by left|..|by left].
    destruct (latestMetrics !! metricKey) as [[|c]|] eqn:Hc;
      [by right|..|by right].
    rewrite (calculateTrend_present _ _ _ _ p c) in Hno by done.
    cbn zeta in Hno. by destruct (Number.eqb _ _).
  - unfold calculateTrend, trendBetween.
    intros [Hlen|[Hp|Hc]].
    + by destruct (Nat.ltb_spec (length metricHistory) 2) as [?|?]; [|lia].
    + destruct (_ <? _)%nat; [done|].
      by destruct (previousValue metricHistory metricKey) as [[|p]|].
    + destruct (_ <? _)%nat; [done|].
      destruct (previousValue metricHistory metricKey) as [[|p]|]; try done.
      by destruct (latestMetrics !! metricKey) as [[|c]|].
  - intros p c _ Hlen Hp Hc.
    rewrite (calculateTrend_present _ _ _ _ p c) by done. cbn zeta.
    by destruct (Number.eqb _ _); split; try done; eexists.
Qed.

Lemma calculateTrend_noTrend_iff_witness :
  calculateTrend [] ∅ "x" defaultTrendOptions = noTrend
  ∧ is_Some
      (arrow (calculateTrend [entry 1 "x" 0; entry 2 "x" 5]
                {[ "x" := JNum 0%Qc ]} "x" defaultTrendOptions)).
Proof.
  split.
  - apply (proj1 (calculateTrend_noTrend_iff [] ∅ "x" defaultTrendOptions)).
    left. simpl. lia.
  - refine (proj2 (proj2 (proj2 (calculateTrend_noTrend_iff
              [entry 1 "x" 0; entry 2 "x" 5] {[ "x" := JNum 0%Qc ]} "x"
              defaultTrendOptions)) (Number.ofZ 0) 0%Qc _ _ _ _)).
    + by right.
    + simpl. lia.
    + reflexivity.
    + reflexivity.
Defined.









(** Examples of display texts. *)
Example deltaText_examples :
  deltaText (Number.ofZ 5) = "+5"
  ∧ deltaText (Number.ofZ (-12)) = "-12"
  ∧ deltaText (Q2Qc (5 # 2)) = "+2.5"
  ∧ deltaText (Q2Qc (-7 # 4)) = "-1.8"
  ∧ deltaText (Q2Qc (1 # 25)) = "+0.0"
  ∧ deltaText (Q2Qc (1234 # 100)) = "+12.3".
Proof. by vm_compute. Qed.

(** C6.  With [neutral] on, the semantic colour is flat for every input
    and either polarity, and the arrow still follows the sign of the
    delta: up for an increase, down for a decrease. *)
Theorem calculateTrend_neutral_flat (metricHistory : list snapshot)
    (latestMetrics : gmap string jsval) (metricKey : string)
    (inv : bool) :
  let r := calculateTrend metricHistory latestMetrics metricKey
             {| inverse := inv; neutral := true |} in
  color r = "var(--dash-trend-flat)"
  ∧ ∀ p c : Qc,
      (2 ≤ length metricHistory)%nat →
      previousValue metricHistory metricKey = Some (JNum p) →
      latestMetrics !! metricKey = Some (JNum c) →
      ((0 < c - p)%Qc → arrow r = Some svgUpRight)
      ∧ ((c - p < 0)%Qc → arrow r = Some svgDownRight)
      ∧ ((c - p)%Qc = 0%Qc → arrow r = Some svgFlat).
Proof.
  intros r. split.
  - subst r. unfold calculateTrend, trendBetween. simpl.
    by repeat case_match.
  - intros p c Hlen Hp Hc. subst r.
    rewrite (calculateTrend_present _ _ _ _ p c) by done. cbn zeta.
    split; [|split].
    + intros Hpos.
      assert ((c - p)%Qc ≠ 0%Qc) as Hne%eqb_neq.
      { intros E. rewrite E in Hpos. by apply Qclt_not_eq in Hpos. }
      rewrite Hne. simpl. apply ltb_lt in Hpos. by rewrite Hpos.
    + intros Hneg.
      assert ((c - p)%Qc ≠ 0%Qc) as Hne%eqb_neq.
      { intros E. rewrite E in Hneg. by apply Qclt_not_eq in Hneg. }
      rewrite Hne. simpl.
      assert (Number.ltb 0 (c - p) = false) as ->; [|done].
      apply ltb_ge. by apply Qclt_le_weak.
    + intros Hz%eqb_eq. by rewrite Hz.
Qed.

Lemma calculateTrend_neutral_flat_witness :
  arrow (calculateTrend scenarioHistory scenarioLatest "x"
           {| inverse := true; neutral := true |}) = Some svgUpRight.
Proof.
  refine (proj1 (proj2 (calculateTrend_neutral_flat scenarioHistory
            scenarioLatest "x" true) (Number.ofZ 10) (Number.ofZ 15)
            _ _ _) _).
  - simpl. lia.
  - reflexivity.
  - reflexivity.
  - apply ltb_lt. by vm_compute.
Defined.

(** ** Dates *)

(** The year of a day is the one whose first day is the last not after
    it. *)
Lemma YearFromDay_spec (d : Z) :
  Date.DayFromYear (Date.YearFromDay d) <= d
  < Date.DayFromYear (Date.YearFromDay d + 1).
Proof.
  unfold Date.YearFromDay, Date.DayFromYear.
  repeat case_match; rewrite ?Z.leb_le, ?Z.leb_gt in *;
    Z.div_mod_to_equations; lia.
Qed.

(** Moving a date back six days of the month moves its time value back
    by six days, also across the start of a month or a year. *)
Lemma setDate_minus_6 (d : Date.t) :
  Date.setDate d (Date.getDate d - 6) = d - 6 * Date.msPerDay.
Proof.
  unfold Date.setDate, Date.getDate, Date.DateFromTime, Date.MakeDay,
    Date.MakeDate, Date.DayWithinYear, Date.TimeWithinDay, Date.Day.
  set (y := Date.YearFromTime d).
  set (off := Date.monthOffset _ _).
  set (y0 := Date.DayFromYear y).
  unfold Date.msPerDay.
  pose proof (Z.div_mod d 86400000 ltac:(done)). lia.
Qed.

(** ** buildTrendChart *)

Lemma singlePointDomain_eq (d : Date.t) :
  singlePointDomain d = (d - 6 * Date.msPerDay, d).
Proof.
  unfold singlePointDomain, Date.copy. by rewrite setDate_minus_6.
Qed.

Section Chart.
Context `{Locale}.
Variables (metricHistory : list snapshot)
          (latestMetrics : gmap string jsval) (metricKey : string).

Lemma buildTrendChart_noData (options : chartOptions) :
  projectHistory metricHistory metricKey = [] →
  buildTrendChart metricHistory latestMetrics metricKey options
  = noDataCard (opt_title options).
Proof. unfold buildTrendChart. by intros ->. Qed.

Lemma buildTrendChart_chart (options : chartOptions) :
  projectHistory metricHistory metricKey ≠ [] →
  ∃ chart,
    cardChart
      (buildTrendChart metricHistory latestMetrics metricKey options)
    = Some chart
    ∧ buildTrendChart metricHistory latestMetrics metricKey options
      = chartCard (opt_title options)
          (match opt_valueFormat options with
           | Some valueFormat => valueFormat (latestMetrics !! metricKey)
           | None =>
               formatMetric (latestMetrics !! metricKey)
                 (default EmptyString (opt_suffix options))
           end)
          (makeArrowNode
             (calculateTrend metricHistory latestMetrics metricKey
                {| inverse := opt_inverse options;
                   neutral := opt_neutral options |}))
          (let tr :=
             calculateTrend metricHistory latestMetrics metricKey
               {| inverse := opt_inverse options;
                  neutral := opt_neutral options |} in
           let deltaText :=
             if truthy (text tr) then
               text tr ++ default EmptyString (opt_suffix options)
                 ++ " from previous"
             else if (length metricHistory =? 1)%nat then "No trend"
             else EmptyString in
           if truthy deltaText then Some deltaText else None)
          chart
    ∧ y_domain (y chart) = opt_yDomain options
    ∧ y_tickFormat (y chart)
      = yTickFormat (opt_tickFormat options)
          (default EmptyString (opt_suffix options))
          (forallb (λ d, Number.isInteger (point_value d))
             (projectHistory metricHistory metricKey))
          (opt_reverse options) (opt_yDomain options)
    ∧ x_domain (x chart)
      = (if (length (projectHistory metricHistory metricKey) =? 1)%nat
         then singlePointDomain ∘ point_date
                <$> head (plotted options
                            (projectHistory metricHistory metricKey))
         else None)
    ∧ marks chart
      = let chartData :=
          plotted options (projectHistory metricHistory metricKey) in
        let color :=
          default "var(--dash-trend-flat)" (opt_color options) in
        if (length (projectHistory metricHistory metricKey) =? 1)%nat
        then
          [ ruleY (point_value <$> take 1 chartData) color q3_2 q7_10;
            dot chartData color q6_10 q3 ]
        else
          [ areaY chartData
              (match opt_yDomain options with
               | Some (lo, _) => lo
               | None => 0%Qc
               end) color q1_10 "monotone-x";
            lineY chartData color q3_2 q7_10 "monotone-x";
            dot chartData color q6_10 q5_2;
            tip chartData
              (λ point,
                 toLocaleDateString (point_date point) ++ ": "
                 ++ displayValue (opt_reverse options)
                      (opt_yDomain options) (opt_valueFormat options)
                      (default EmptyString (opt_suffix options))
                      (point_value point)) ].
Proof.
  intros Hne. unfold buildTrendChart, assembleCard, plotted.
  destruct (projectHistory metricHistory metricKey) as [|p ps] eqn:Hp;
    [done|].
  cbn [length Nat.eqb]. cbv zeta. eexists. cbn [cardChart].
  repeat split.
Qed.

End Chart.

(** C2, as amended.  For an empty history and any key, calculateTrend
    returns the "no trend" descriptor and buildTrendChart returns the
    "No data" card whatever the latest metrics hold; in general the card
    is "No data" exactly when no entry of the history has a value for the
    key. *)
Theorem buildTrendChart_empty_history `{Locale} :
  (∀ (latestMetrics : gmap string jsval) (metricKey : string)
     (trendOpts : trendOptions) (options : chartOptions),
     calculateTrend [] latestMetrics metricKey trendOpts = noTrend
     ∧ buildTrendChart [] latestMetrics metricKey options
       = noDataCard (opt_title options))
  ∧ (∀ (metricHistory : list snapshot) (latestMetrics : gmap string jsval)
       (metricKey : string) (options : chartOptions),
       buildTrendChart metricHistory latestMetrics metricKey options
       = noDataCard (opt_title options)
       ↔ projectHistory metricHistory metricKey = []).
Proof.
  split.
  - intros. split; [done|]. by apply buildTrendChart_noData.
  - intros. split; [|apply buildTrendChart_noData].
    intros Hcard.
    destruct (decide (projectHistory metricHistory metricKey = []))
      as [|Hne]; [done|].
    destruct (buildTrendChart_chart metricHistory latestMetrics metricKey
                options Hne) as (chart & Hc & _).
    by rewrite Hcard in Hc.
Qed.

Lemma buildTrendChart_empty_history_witness :
  @buildTrendChart enUS [ {| date := 0; metrics := ∅ |} ] scenarioLatest
    "x" (defaultOptions "Coverage")
  = noDataCard "Coverage".
Proof.
  apply (proj2 (@buildTrendChart_empty_history enUS)). reflexivity.
Defined.

(** C2, as stated, fails: with an empty history and a latest value that is
    present, the card is still "No data"; the current value is not
    rendered. *)
Lemma buildTrendChart_empty_history_counterexample :
  isNullish (scenarioLatest !! "x") = false
  ∧ @buildTrendChart enUS [] scenarioLatest "x" (defaultOptions "Coverage")
    = noDataCard "Coverage"
  ∧ cardChart
      (@buildTrendChart enUS [] scenarioLatest "x"
         (defaultOptions "Coverage")) = None.
Proof. by vm_compute. Qed.

(** C10.  Without a [yDomain], [reverse] has no effect: the card is the
    one built with [reverse] off, for every history, latest metrics, key
    and other options. *)
Theorem buildTrendChart_reverse_without_domain `{Locale}
    (metricHistory : list snapshot) (latestMetrics : gmap string jsval)
    (metricKey : string) (options : chartOptions) :
  opt_yDomain options = None →
  buildTrendChart metricHistory latestMetrics metricKey
    (withReverse true options)
  = buildTrendChart metricHistory latestMetrics metricKey
      (withReverse false options).
Proof.
  intros Hdom. unfold buildTrendChart, assembleCard, withReverse,
    yTickFormat, displayValue. cbn [opt_title opt_color opt_suffix opt_yDomain
    opt_inverse opt_neutral opt_tickFormat opt_valueFormat opt_reverse].
  rewrite Hdom. cbv zeta. reflexivity.
Qed.

Lemma buildTrendChart_reverse_without_domain_witness :
  @buildTrendChart enUS scenarioHistory scenarioLatest "x"
    (withReverse true (defaultOptions "Coverage"))
  = @buildTrendChart enUS scenarioHistory scenarioLatest "x"
      (withReverse false (defaultOptions "Coverage")).
Proof.
  apply (@buildTrendChart_reverse_without_domain enUS). reflexivity.
Defined.

(** C7.  When the projected series has exactly one point (in particular
    for a one-entry history with a value), the chart has no area and no
    line mark: its marks are a horizontal rule at the plotted value and
    one dot, and the time axis runs from exactly six days before the
    point's date to the point's date. *)
Theorem buildTrendChart_single_point `{Locale}
    (metricHistory : list snapshot) (latestMetrics : gmap string jsval)
    (metricKey : string) (options : chartOptions) (p : point) :
  projectHistory metricHistory metricKey = [p] →
  ∃ chart p',
    cardChart (buildTrendChart metricHistory latestMetrics metricKey options)
    = Some chart
    ∧ plotted options [p] = [p']
    ∧ point_date p' = point_date p
    ∧ marks chart
      = [ ruleY [point_value p']
            (default "var(--dash-trend-flat)" (opt_color options))
            q3_2 q7_10;
          dot [p'] (default "var(--dash-trend-flat)" (opt_color options))
            q6_10 q3 ]
    ∧ Forall (λ m, isAreaOrLine m = false) (marks chart)
    ∧ x_domain (x chart)
      = Some (point_date p - 6 * Date.msPerDay, point_date p).
Proof.
  intros Hp.
  destruct (buildTrendChart_chart metricHistory latestMetrics metricKey
              options) as (chart & Hc & _ & _ & _ & Hx & Hm).
  { by rewrite Hp. }
  rewrite Hp in Hx, Hm. cbn [length Nat.eqb] in Hx, Hm.
  assert (Hpl : ∃ p', plotted options [p] = [p']
                      ∧ point_date p' = point_date p).
  { unfold plotted. destruct (opt_reverse options); [|by eexists].
    destruct (opt_yDomain options) as [[lo hi]|]; by eexists. }
  destruct Hpl as (p' & Hpl & Hd). rewrite Hpl in Hx, Hm.
  exists chart, p'. repeat split; try done.
  - rewrite Hm. by repeat constructor.
  - rewrite Hx. cbn. by rewrite singlePointDomain_eq, Hd.
Qed.

Lemma buildTrendChart_single_point_witness :
  ∃ chart,
    cardChart (@buildTrendChart enUS [entry 3 "y" 3]
                 {[ "y" := JNum (Number.ofZ 3) ]} "y"
                 (defaultOptions "Rating"))
    = Some chart
    ∧ x_domain (x chart)
      = Some (Date.ofYMD 2024 3 3 - 6 * Date.msPerDay, Date.ofYMD 2024 3 3).
Proof.
  destruct (@buildTrendChart_single_point enUS [entry 3 "y" 3]
              {[ "y" := JNum (Number.ofZ 3) ]} "y" (defaultOptions "Rating")
              {| point_date := Date.ofYMD 2024 3 3;
                 point_value := Number.ofZ 3 |} eq_refl)
    as (chart & p' & Hc & _ & _ & _ & _ & Hx).
  by exists chart.
Defined.

(** Six days before the third of March of a leap year is the 26th of
    February. *)
Example singlePointDomain_leap :
  let first := fst (singlePointDomain (Date.ofYMD 2024 3 3)) in
  (Date.getFullYear first, Date.getMonth first, Date.getDate first)
  = (2024, 1, 26).
Proof. by vm_compute. Qed.



(** Tick labels of the digits-or-trimmed rule. *)
Example plainOrTrimmed_examples :
  plainOrTrimmed (Number.ofZ 12) = "12"
  ∧ plainOrTrimmed (Q2Qc (3 # 2)) = "1.5"
  ∧ plainOrTrimmed (Q2Qc (1 # 8)) = "0.13"
  ∧ plainOrTrimmed (Q2Qc (100001 # 1000)) = "100"
  ∧ plainOrTrimmed (Q2Qc (-2505 # 100)) = "-25.05".
Proof. by vm_compute. Qed.

(** Un-reversing a reversed value gives the value back. *)
Lemma reverse_involutive (lo hi v : Qc) :
  (hi + lo - (hi + lo - v))%Qc = v.
Proof. ring. Qed.

(** Without a [valueFormat] the display function is the default
    number-and-suffix format of the value it is given. *)
Lemma displayValue_default `{Locale} (reverse : bool)
    (yDomain : option (Qc * Qc)) (suffix : string) (v : Qc) :
  displayValue reverse yDomain None suffix v = toLocaleString v ++ suffix.
Proof.
  unfold displayValue. destruct reverse; [|done].
  by destruct yDomain as [[lo hi]|].
Qed.



(** The tooltips of the upside-down rating chart with letters. *)
Example rating_tooltips :
  tipTexts
    (default [] (marks <$> cardChart
       (@buildTrendChart enUS ratingHistory ratingLatest "y"
          (withValueFormat ratingLetter ratingOptions))))
  = ["3/1/2024: A"; "3/2/2024: B"].
Proof. by vm_compute. Qed.


(** ** The object store *)

Lemma bind_Some {A B} (m : M A) (k : A → M B) σ a σ' :
  m σ = Some (a, σ') → bind m k σ = k a σ'.
Proof. unfold bind. by intros ->. Qed.

Lemma load_Some σ l o : σ !! l = Some o → load l σ = Some (o, σ).
Proof. unfold load. by intros ->. Qed.

Lemma loadDate_Some σ l tv :
  σ !! l = Some (ObjDate tv) → loadDate l σ = Some (tv, σ).
Proof.
  intros Hl. unfold loadDate.
  by rewrite (bind_Some _ _ _ _ _ (load_Some _ _ _ Hl)).
Qed.

Lemma loadMetrics_Some σ l ms :
  σ !! l = Some (ObjMetrics ms) → loadMetrics l σ = Some (ms, σ).
Proof.
  intros Hl. unfold loadMetrics.
  by rewrite (bind_Some _ _ _ _ _ (load_Some _ _ _ Hl)).
Qed.

Lemma loadEntry_Some σ l d m :
  σ !! l = Some (ObjEntry d m) → loadEntry l σ = Some ((d, m), σ).
Proof.
  intros Hl. unfold loadEntry.
  by rewrite (bind_Some _ _ _ _ _ (load_Some _ _ _ Hl)).
Qed.

Lemma loadPoint_Some σ l d v :
  σ !! l = Some (ObjPoint d v) → loadPoint l σ = Some ((d, v), σ).
Proof.
  intros Hl. unfold loadPoint.
  by rewrite (bind_Some _ _ _ _ _ (load_Some _ _ _ Hl)).
Qed.

Lemma loadArray_Some σ l es :
  σ !! l = Some (ObjArray es) → loadArray l σ = Some (es, σ).
Proof.
  intros Hl. unfold loadArray.
  by rewrite (bind_Some _ _ _ _ _ (load_Some _ _ _ Hl)).
Qed.

(** A new object leaves the objects of the store as they are. *)
Lemma alloc_spec σ o :
  ∃ l, alloc o σ = Some (l, <[l := o]> σ) ∧ σ !! l = None
       ∧ σ ⊆ <[l := o]> σ.
Proof.
  exists (fresh (dom σ)). split; [done|].
  assert (σ !! fresh (dom σ) = None) as Hfresh.
  { apply not_elem_of_dom. apply is_fresh. }
  split; [done|]. by apply insert_subseteq.
Qed.

(** What an entry of the caller's store holds. *)
Lemma snapshotAt_Some σ entry s :
  snapshotAt σ entry = Some s →
  ∃ d m, σ !! entry = Some (ObjEntry d m)
         ∧ σ !! d = Some (ObjDate (date s))
         ∧ σ !! m = Some (ObjMetrics (metrics s)).
Proof.
  unfold snapshotAt. intros Hs.
  destruct (σ !! entry) as [[| |d m| |]|] eqn:He; try done.
  destruct (σ !! d) as [[tv| | | |]|] eqn:Hd; try done.
  destruct (σ !! m) as [[|ms| | |]|] eqn:Hm; try done.
  injection Hs as <-. by exists d, m.
Qed.

Lemma snapshotAt_mono σ σ' entry s :
  σ ⊆ σ' → snapshotAt σ entry = Some s → snapshotAt σ' entry = Some s.
Proof.
  intros Hsub (d & m & He & Hd & Hm)%snapshotAt_Some.
  unfold snapshotAt.
  rewrite (lookup_weaken _ _ _ _ He Hsub), (lookup_weaken _ _ _ _ Hd Hsub),
    (lookup_weaken _ _ _ _ Hm Hsub).
  by destruct s.
Qed.

Lemma entryMetric_spec σ entry s metricKey :
  snapshotAt σ entry = Some s →
  entryMetric metricKey entry σ = Some (metrics s !! metricKey, σ).
Proof.
  intros (d & m & He & Hd & Hm)%snapshotAt_Some. unfold entryMetric.
  rewrite (bind_Some _ _ _ _ _ (loadEntry_Some _ _ _ _ He)).
  by rewrite (bind_Some _ _ _ _ _ (loadMetrics_Some _ _ _ Hm)).
Qed.

(** calculateTrend only reads: it returns what the pure function
    computes from the objects, in the same store. *)
Lemma calculateTrend_st_spec σ metricHistory latestMetrics metricKey
    options history latest :
  historyAt σ metricHistory = Some history →
  metricsAt σ latestMetrics = Some latest →
  calculateTrend_st metricHistory latestMetrics metricKey options σ
  = Some (calculateTrend history latest metricKey options, σ).
Proof.
  unfold historyAt, metricsAt. intros Hh Hl.
  destruct (σ !! metricHistory) as [[| | | |entries]|] eqn:Harr; try done.
  destruct (σ !! latestMetrics) as [[|ms| | |]|] eqn:Hlat; try done.
  injection Hl as ->.
  apply mapM_Some in Hh.
  unfold calculateTrend_st, calculateTrend.
  rewrite (bind_Some _ _ _ _ _ (loadArray_Some _ _ _ Harr)).
  rewrite (Forall2_length _ _ _ Hh).
  destruct (length history <? 2)%nat eqn:Hlen; [done|].
  apply Nat.ltb_ge in Hlen.
  destruct (lookup_lt_is_Some_2 history (length history - 2)) as [s Hs];
    [lia|].
  destruct (Forall2_lookup_r _ _ _ _ _ Hh Hs) as (e & He & Hes).
  rewrite He.
  rewrite (bind_Some _ _ _ _ _ (entryMetric_spec _ _ _ metricKey Hes)).
  rewrite (bind_Some _ _ _ _ _ (loadMetrics_Some _ _ _ Hlat)).
  unfold previousValue. by rewrite Hs.
Qed.

(** A loop of reads returns what each read returns, in the same store. *)
Lemma forEach_read {A B} (f : A → M B) σ (l : list A) (bs : list B) :
  Forall2 (λ a b, f a σ = Some (b, σ)) l bs →
  forEach f l σ = Some (bs, σ).
Proof.
  induction 1 as [|a b l bs Hab _ IH]; [done|]. simpl.
  rewrite (bind_Some _ _ _ _ _ Hab). by rewrite (bind_Some _ _ _ _ _ IH).
Qed.

Lemma projectHistory_cons (s : snapshot) (history : list snapshot)
    (metricKey : string) :
  projectHistory (s :: history) metricKey
  = match projectEntry metricKey s with
    | Some p => p :: projectHistory history metricKey
    | None => projectHistory history metricKey
    end.
Proof. reflexivity. Qed.

(** The filter keeps the entries that have a value, and only reads. *)
Lemma filterEntries_spec σ metricKey entries history :
  Forall2 (λ e s, snapshotAt σ e = Some s) entries history →
  ∃ kept keptHistory,
    filterEntries metricKey entries σ = Some (kept, σ)
    ∧ Forall2 (λ e s, snapshotAt σ e = Some s) kept keptHistory
    ∧ Forall (hasValue metricKey) keptHistory
    ∧ projectHistory keptHistory metricKey
      = projectHistory history metricKey.
Proof.
  induction 1 as [|e s entries history Hes _ IH].
  - exists [], []. by repeat split.
  - destruct IH as (kept & keptHistory & Hrun & Hkept & Hval & Hproj).
    rewrite projectHistory_cons. cbn [filterEntries].
    rewrite (bind_Some _ _ _ _ _ (entryMetric_spec _ _ _ metricKey Hes)).
    rewrite (bind_Some _ _ _ _ _ Hrun).
    unfold projectEntry, ret.
    destruct (metrics s !! metricKey) as [[|v]|] eqn:Hv; cbn [isNullish].
    + by exists kept, keptHistory.
    + exists (e :: kept), (s :: keptHistory). split; [done|].
      split; [by constructor|]. split.
      * constructor; [by exists v|done].
      * rewrite projectHistory_cons. unfold projectEntry.
        by rewrite Hv, Hproj.
    + by exists kept, keptHistory.
Qed.

(** The map creates one new point per kept entry; the objects of the
    store stay as they are. *)
Lemma makePoints_spec σ0 metricKey kept keptHistory :
  Forall2 (λ e s, snapshotAt σ0 e = Some s) kept keptHistory →
  Forall (hasValue metricKey) keptHistory →
  ∀ σ, σ0 ⊆ σ →
  ∃ ps σ',
    forEach (makePoint metricKey) kept σ = Some (ps, σ')
    ∧ σ ⊆ σ'
    ∧ NoDup ps
    ∧ Forall (λ l, σ !! l = None) ps
    ∧ Forall2 (pointAt σ0 σ') ps (projectHistory keptHistory metricKey).
Proof.
  induction 1 as [|e s kept keptHistory Hes _ IH]; intros Hval σ Hsub.
  - exists [], σ. repeat split; try done; constructor.
  - apply Forall_cons in Hval as [[v Hv] Hval].
    destruct (snapshotAt_Some _ _ _ (snapshotAt_mono _ _ _ _ Hsub Hes))
      as (d & m & He & Hd & Hm).
    destruct (snapshotAt_Some _ _ _ Hes) as (d0 & m0 & He0 & Hd0 & _).
    assert (d0 = d) as ->.
    { pose proof (lookup_weaken _ _ _ _ He0 Hsub) as He0'. congruence. }
    destruct (alloc_spec σ (ObjPoint d v)) as (l & Hal & Hl & Hsub1).
    destruct (IH Hval (<[l := ObjPoint d v]> σ))
      as (ps & σ' & Hrun & Hsub' & Hnd & Hfresh & Hpts).
    { by etrans. }
    exists (l :: ps), σ'. cbn [forEach].
    assert (Hmk : makePoint metricKey e σ
                  = Some (l, <[l := ObjPoint d v]> σ)).
    { unfold makePoint.
      rewrite (bind_Some _ _ _ _ _ (loadEntry_Some _ _ _ _ He)).
      rewrite (bind_Some _ _ _ _ _ (loadMetrics_Some _ _ _ Hm)).
      by rewrite Hv. }
    rewrite (bind_Some _ _ _ _ _ Hmk). rewrite (bind_Some _ _ _ _ _ Hrun).
    split; [done|]. split; [by etrans|].
    assert (Hin : l ∉ ps).
    { intros Hin. rewrite Forall_forall in Hfresh.
      specialize (Hfresh _ Hin). by rewrite lookup_insert_eq in Hfresh. }
    split; [by constructor|]. split.
    + constructor; [done|]. eapply Forall_impl; [exact Hfresh|].
      intros l' Hl'. simpl in Hl'.
      destruct (σ !! l') eqn:E; [|done].
      by rewrite (lookup_weaken _ _ _ _ E Hsub1) in Hl'.
    + rewrite projectHistory_cons. unfold projectEntry. rewrite Hv.
      constructor; [|done]. exists d. simpl. split; [|done].
      eapply lookup_weaken; [|exact Hsub']. apply lookup_insert_eq.
Qed.

Lemma pointAt_mono σ0 σ σ' l p :
  σ ⊆ σ' → pointAt σ0 σ l p → pointAt σ0 σ' l p.
Proof.
  intros Hsub (d & Hl & Hd). exists d. split; [|done].
  by eapply lookup_weaken.
Qed.

(** The reversal writes the point objects, and nothing else. *)
Lemma reverseInPlace_spec σ0 lo hi ps pts :
  Forall2 (λ l p, True) ps pts →
  ∀ σ, NoDup ps → Forall2 (pointAt σ0 σ) ps pts →
  ∃ us σ',
    forEach (reverseInPlace lo hi) ps σ = Some (us, σ')
    ∧ (∀ l, l ∉ ps → σ' !! l = σ !! l)
    ∧ Forall2 (pointAt σ0 σ') ps (map (reversePoint lo hi) pts).
Proof.
  induction 1 as [|l p ps pts _ _ IH]; intros σ Hnd Hpts.
  - exists [], σ. repeat split; try done; constructor.
  - apply NoDup_cons in Hnd as [Hl Hnd].
    apply Forall2_cons in Hpts as [(d & Hlp & Hd) Hpts].
    set (σ1 := <[l := ObjPoint d (hi + lo - point_value p)%Qc]> σ).
    assert (Hpts1 : Forall2 (pointAt σ0 σ1) ps pts).
    { clear IH. induction Hpts as [|l' p' ps pts Hp' _ IH']; [constructor|].
      apply not_elem_of_cons in Hl as [Hne Hl].
      apply NoDup_cons in Hnd as [_ Hnd].
      constructor; [|by apply IH'].
      destruct Hp' as (d' & Hl' & Hd'). exists d'. split; [|done].
      unfold σ1. by rewrite lookup_insert_ne. }
    destruct (IH σ1 Hnd Hpts1) as (us & σ' & Hrun & Hframe & Hpts').
    exists (tt :: us), σ'. cbn [forEach].
    assert (Hstep : reverseInPlace lo hi l σ = Some (tt, σ1)).
    { unfold reverseInPlace.
      by rewrite (bind_Some _ _ _ _ _ (loadPoint_Some _ _ _ _ Hlp)). }
    rewrite (bind_Some _ _ _ _ _ Hstep), (bind_Some _ _ _ _ _ Hrun).
    split; [done|]. split.
    + intros l' [Hne Hl']%not_elem_of_cons. rewrite (Hframe _ Hl').
      unfold σ1. by rewrite lookup_insert_ne.
    + constructor; [|done]. exists d. simpl. split; [|done].
      rewrite (Hframe _ Hl). unfold σ1. apply lookup_insert_eq.
Qed.

(** Reading the points back. *)
Lemma readPoints_spec σ0 σ ps pts :
  σ0 ⊆ σ → Forall2 (pointAt σ0 σ) ps pts →
  forEach readPoint ps σ = Some (pts, σ)
  ∧ forEach (λ d, let* (_, v) := loadPoint d in ret v) ps σ
    = Some (point_value <$> pts, σ).
Proof.
  intros Hsub Hpts. split.
  - apply forEach_read. eapply Forall2_impl; [exact Hpts|].
    intros l p (d & Hl & Hd). unfold readPoint.
    rewrite (bind_Some _ _ _ _ _ (loadPoint_Some _ _ _ _ Hl)).
    rewrite (bind_Some _ _ _ _ _
               (loadDate_Some _ _ _ (lookup_weaken _ _ _ _ Hd Hsub))).
    by destruct p.
  - apply forEach_read. apply Forall2_fmap_r.
    eapply Forall2_impl; [exact Hpts|].
    intros l p (d & Hl & Hd).
    by rewrite (bind_Some _ _ _ _ _ (loadPoint_Some _ _ _ _ Hl)).
Qed.

Lemma historyAt_Some σ metricHistory history :
  historyAt σ metricHistory = Some history →
  ∃ entries, σ !! metricHistory = Some (ObjArray entries)
             ∧ Forall2 (λ e s, snapshotAt σ e = Some s) entries history.
Proof.
  unfold historyAt. intros Hh.
  destruct (σ !! metricHistory) as [[| | | |entries]|]; try done.
  exists entries. split; [done|]. by apply mapM_Some.
Qed.

Lemma historyAt_mono σ σ' metricHistory history :
  σ ⊆ σ' →
  historyAt σ metricHistory = Some history →
  historyAt σ' metricHistory = Some history.
Proof.
  intros Hsub (entries & Harr & Hes)%historyAt_Some. unfold historyAt.
  rewrite (lookup_weaken _ _ _ _ Harr Hsub). apply mapM_Some.
  eapply Forall2_impl; [exact Hes|]. intros e s.
  by apply snapshotAt_mono.
Qed.

Lemma metricsAt_Some σ latestMetrics latest :
  metricsAt σ latestMetrics = Some latest →
  σ !! latestMetrics = Some (ObjMetrics latest).
Proof.
  unfold metricsAt. intros Hl.
  destruct (σ !! latestMetrics) as [[|ms| | |]|]; try done. congruence.
Qed.

Lemma metricsAt_mono σ σ' latestMetrics latest :
  σ ⊆ σ' →
  metricsAt σ latestMetrics = Some latest →
  metricsAt σ' latestMetrics = Some latest.
Proof.
  intros Hsub Hl%metricsAt_Some. unfold metricsAt.
  by rewrite (lookup_weaken _ _ _ _ Hl Hsub).
Qed.

(** The reversal step: the plotted points end up in the point objects,
    and the caller's objects are as before. *)
Lemma reverseStep_spec σ0 σ (options : chartOptions) ps pts :
  σ0 ⊆ σ → NoDup ps → Forall (λ l, σ0 !! l = None) ps →
  Forall2 (pointAt σ0 σ) ps pts →
  ∃ us σ',
    match opt_reverse options, opt_yDomain options with
    | true, Some (lo, hi) => forEach (reverseInPlace lo hi) ps
    | _, _ => ret []
    end σ = Some (us, σ')
    ∧ σ0 ⊆ σ'
    ∧ Forall2 (pointAt σ0 σ') ps (plotted options pts).
Proof.
  intros Hsub Hnd Hfresh Hpts. unfold plotted.
  destruct (opt_reverse options); [|by exists [], σ].
  destruct (opt_yDomain options) as [[lo hi]|]; [|by exists [], σ].
  destruct (reverseInPlace_spec σ0 lo hi ps pts) with (σ := σ)
    as (us & σ' & Hrun & Hframe & Hpts'); try done.
  { eapply Forall2_impl; [exact Hpts|]. done. }
  exists us, σ'. split; [done|]. split; [|done].
  apply map_subseteq_spec. intros l o Hl.
  rewrite Hframe; [by eapply lookup_weaken|].
  intros Hin. rewrite Forall_forall in Hfresh.
  specialize (Hfresh _ Hin). congruence.
Qed.

Section ChartStore.
Context `{Locale}.

(** The single-point domain: two new date objects. *)
Lemma singlePointDomain_st_spec σ0 σ l p :
  σ0 ⊆ σ → pointAt σ0 σ l p →
  ∃ firstDay lastDay σ',
    singlePointDomain_st l σ = Some ((firstDay, lastDay), σ')
    ∧ σ ⊆ σ'
    ∧ σ' !! firstDay
      = Some (ObjDate (Date.setDate (point_date p)
                         (Date.getDate (point_date p) - 6)))
    ∧ σ' !! lastDay = Some (ObjDate (point_date p)).
Proof.
  intros Hsub (d & Hl & Hd).
  pose proof (lookup_weaken _ _ _ _ Hd Hsub) as Hd1.
  set (tv := point_date p) in *.
  destruct (alloc_spec σ (ObjDate tv)) as (f & Hf & Hfn & Hsub1).
  set (σ1 := <[f := ObjDate tv]> σ) in *.
  destruct (alloc_spec σ1 (ObjDate tv)) as (la & Hla & Hlan & Hsub2).
  set (σ2 := <[la := ObjDate tv]> σ1) in *.
  assert (Hf2 : σ2 !! f = Some (ObjDate tv)).
  { eapply lookup_weaken; [|exact Hsub2]. apply lookup_insert_eq. }
  assert (Hne : f ≠ la).
  { intros ->. unfold σ1 in Hlan. by rewrite lookup_insert_eq in Hlan. }
  exists f, la, (<[f := ObjDate (Date.setDate tv (Date.getDate tv - 6))]> σ2).
  unfold singlePointDomain_st.
  rewrite (bind_Some _ _ _ _ _ (loadPoint_Some _ _ _ _ Hl)).
  rewrite (bind_Some _ _ _ _ _ (loadDate_Some _ _ _ Hd1)).
  rewrite (bind_Some _ _ _ _ _ Hf).
  rewrite (bind_Some _ _ _ _ _
             (loadDate_Some _ _ _ (lookup_weaken _ _ _ _ Hd1 Hsub1))).
  rewrite (bind_Some _ _ _ _ _ Hla).
  rewrite (bind_Some _ _ _ _ _ (loadDate_Some _ _ _ Hf2)).
  split; [done|]. split; [|split].
  - apply insert_subseteq_r; [done|]. by etrans.
  - apply lookup_insert_eq.
  - rewrite lookup_insert_ne by done. apply lookup_insert_eq.
Qed.

Lemma xDomain_spec σ0 σ ps pts (isSinglePoint : bool) :
  σ0 ⊆ σ → Forall2 (pointAt σ0 σ) ps pts →
  (isSinglePoint = true → pts ≠ []) →
  ∃ xDomain σ',
    (if isSinglePoint then
       match head ps with
       | Some point0 =>
           let* dom := singlePointDomain_st point0 in ret (Some dom)
       | None => throw
       end
     else ret None) σ = Some (xDomain, σ')
    ∧ σ ⊆ σ'
    ∧ ∀ σ'', σ' ⊆ σ'' →
        match xDomain with
        | Some (firstDay, lastDay) =>
            let* first := loadDate firstDay in
            let* last := loadDate lastDay in
            ret (Some (first, last))
        | None => ret None
        end σ''
        = Some (if isSinglePoint then
                  singlePointDomain ∘ point_date <$> head pts
                else None, σ'').
Proof.
  intros Hsub Hpts Hne. destruct isSinglePoint; [|by exists None, σ].
  destruct Hpts as [|l p ps pts Hp _]; [by specialize (Hne eq_refl)|].
  destruct (singlePointDomain_st_spec σ0 σ l p Hsub Hp)
    as (f & la & σ' & Hrun & Hsub' & Hf & Hla).
  exists (Some (f, la)), σ'. cbn [head].
  rewrite (bind_Some _ _ _ _ _ Hrun). split; [done|]. split; [done|].
  intros σ'' Hsub''.
  rewrite (bind_Some _ _ _ _ _
             (loadDate_Some _ _ _ (lookup_weaken _ _ _ _ Hf Hsub''))).
  rewrite (bind_Some _ _ _ _ _
             (loadDate_Some _ _ _ (lookup_weaken _ _ _ _ Hla Hsub''))).
  reflexivity.
Qed.

(** buildTrendChart, run on the store, returns the card that the pure
    function computes from the caller's objects, and every object the
    store held before the call is the same after it. *)
Lemma buildTrendChart_st_spec σ metricHistory latestMetrics metricKey
    options history latest :
  historyAt σ metricHistory = Some history →
  metricsAt σ latestMetrics = Some latest →
  ∃ σ',
    buildTrendChart_st metricHistory latestMetrics metricKey options σ
    = Some (buildTrendChart history latest metricKey options, σ')
    ∧ σ ⊆ σ'.
Proof.
  intros Hh Hl.
  destruct (historyAt_Some _ _ _ Hh) as (entries & Harr & Hes).
  destruct (filterEntries_spec σ metricKey entries history Hes)
    as (kept & keptHistory & Hfilter & Hkept & Hval & Hproj).
  destruct (alloc_spec σ (ObjArray kept)) as (fl & Hfl & _ & Hsub1).
  set (σ1 := <[fl := ObjArray kept]> σ) in *.
  destruct (makePoints_spec σ metricKey kept keptHistory Hkept Hval σ1
              Hsub1) as (ps & σ2 & Hmap & Hsub2 & Hnd & Hfresh & Hpts).
  rewrite Hproj in Hpts.
  destruct (alloc_spec σ2 (ObjArray ps)) as (c & Hc & _ & Hsub3).
  set (σ3 := <[c := ObjArray ps]> σ2) in *.
  assert (Hs3 : σ ⊆ σ3) by (etrans; [|exact Hsub3]; by etrans).
  unfold buildTrendChart_st, buildTrendChart.
  rewrite (bind_Some _ _ _ _ _ (loadArray_Some _ _ _ Harr)).
  rewrite (bind_Some _ _ _ _ _ Hfilter).
  rewrite (bind_Some _ _ _ _ _ Hfl).
  rewrite (bind_Some _ _ _ _ _
             (loadArray_Some σ1 fl kept (lookup_insert_eq _ _ _))).
  rewrite (bind_Some _ _ _ _ _ Hmap).
  rewrite (bind_Some _ _ _ _ _ Hc).
  rewrite (bind_Some _ _ _ _ _
             (loadArray_Some σ3 c ps (lookup_insert_eq _ _ _))).
  set (pts := projectHistory history metricKey) in *.
  rewrite (Forall2_length _ _ _ Hpts).
  destruct (length pts =? 0)%nat eqn:Hempty; [by exists σ3|].
  cbv zeta.
  assert (Hpts3 : Forall2 (pointAt σ σ3) ps pts).
  { eapply Forall2_impl; [exact Hpts|]. intros l p.
    by apply pointAt_mono. }
  destruct (readPoints_spec σ σ3 ps pts Hs3 Hpts3) as [_ Hvalues].
  rewrite (bind_Some _ _ _ _ _ Hvalues).
  assert (Hfresh0 : Forall (λ l, σ !! l = None) ps).
  { eapply Forall_impl; [exact Hfresh|]. intros l Hl1. simpl in Hl1.
    destruct (σ !! l) eqn:E; [|done].
    by rewrite (lookup_weaken _ _ _ _ E Hsub1) in Hl1. }
  destruct (reverseStep_spec σ σ3 options ps pts Hs3 Hnd Hfresh0 Hpts3)
    as (us & σ4 & Hrev & Hs4 & Hpts4).
  rewrite (bind_Some _ _ _ _ _ Hrev).
  fold (plotted options pts).
  destruct (xDomain_spec σ σ4 ps (plotted options pts)
              (length pts =? 1)%nat Hs4 Hpts4)
    as (xd & σ5 & Hxd & Hsub5 & Hread).
  { intros Hone Hnil. apply Nat.eqb_eq in Hone.
    assert (length (plotted options pts) = length pts) as Hlen.
    { symmetry. rewrite <- (Forall2_length _ _ _ Hpts4).
      by rewrite (Forall2_length _ _ _ Hpts). }
    rewrite Hnil in Hlen. simpl in Hlen. lia. }
  rewrite (bind_Some _ _ _ _ _ Hxd).
  assert (Hs5 : σ ⊆ σ5) by by etrans.
  rewrite (bind_Some _ _ _ _ _
             (calculateTrend_st_spec σ5 _ _ metricKey _ history latest
                (historyAt_mono _ _ _ _ Hs5 Hh)
                (metricsAt_mono _ _ _ _ Hs5 Hl))).
  rewrite (bind_Some _ _ _ _ _
             (loadArray_Some _ _ _ (lookup_weaken _ _ _ _ Harr Hs5))).
  rewrite (bind_Some _ _ _ _ _
             (loadMetrics_Some _ _ _
                (lookup_weaken _ _ _ _ (metricsAt_Some _ _ _ Hl) Hs5))).
  assert (Hpts5 : Forall2 (pointAt σ σ5) ps (plotted options pts)).
  { eapply Forall2_impl; [exact Hpts4|]. intros l p.
    by apply pointAt_mono. }
  destruct (readPoints_spec σ σ5 ps _ Hs5 Hpts5) as [Hplot _].
  rewrite (bind_Some _ _ _ _ _ Hplot).
  rewrite (bind_Some _ _ _ _ _ (Hread σ5 (reflexivity _))).
  exists σ5. split; [|done]. unfold ret. do 2 f_equal.
  rewrite (Forall2_length _ _ _ Hes). f_equal.
  clear. induction pts as [|p pts IH]; [done|].
  cbn [fmap list_fmap forallb]. by rewrite <- IH.
Qed.

End ChartStore.

(** C9.  Neither function changes its inputs.  Run on a store that holds
    the history array, its entries with their dates and metrics objects,
    and the latest metrics, calculateTrend returns in the very same store,
    and buildTrendChart returns in a store in which every object that
    existed before the call is unchanged: the history, each entry's
    metrics and the latest metrics read as before.  This holds with
    [reverse] on as well, since the reversal writes only the point objects
    that the projection created.  Both return what the pure functions
    compute from the objects. *)
Theorem inputs_unchanged `{Locale} (σ : gmap loc object)
    (metricHistory latestMetrics : loc) (metricKey : string)
    (trendOpts : trendOptions) (options : chartOptions)
    (history : list snapshot) (latest : gmap string jsval) :
  historyAt σ metricHistory = Some history →
  metricsAt σ latestMetrics = Some latest →
  calculateTrend_st metricHistory latestMetrics metricKey trendOpts σ
  = Some (calculateTrend history latest metricKey trendOpts, σ)
  ∧ ∃ σ',
      buildTrendChart_st metricHistory latestMetrics metricKey options σ
      = Some (buildTrendChart history latest metricKey options, σ')
      ∧ (∀ l o, σ !! l = Some o → σ' !! l = Some o)
      ∧ historyAt σ' metricHistory = Some history
      ∧ metricsAt σ' latestMetrics = Some latest.
Proof.
  intros Hh Hl. split; [by apply calculateTrend_st_spec|].
  destruct (buildTrendChart_st_spec σ metricHistory latestMetrics metricKey
              options history latest Hh Hl) as (σ' & Hrun & Hsub).
  exists σ'. split; [done|]. split; [|split].
  - intros l o Hlo. by eapply lookup_weaken.
  - by eapply historyAt_mono.
  - by eapply metricsAt_mono.
Qed.

Lemma inputs_unchanged_witness :
  ∃ σ',
    @buildTrendChart_st enUS 7%positive 8%positive "x"
      (withReverse true ratingOptions) scenarioStore
    = Some (@buildTrendChart enUS scenarioHistory scenarioLatest "x"
              (withReverse true ratingOptions), σ')
    ∧ historyAt σ' 7%positive = Some scenarioHistory
    ∧ metricsAt σ' 8%positive = Some scenarioLatest.
Proof.
  destruct (@inputs_unchanged enUS scenarioStore 7%positive 8%positive "x"
              defaultTrendOptions (withReverse true ratingOptions)
              scenarioHistory scenarioLatest eq_refl eq_refl)
    as (_ & σ' & Hrun & _ & Hh & Hl).
  exists σ'. split; [exact Hrun|]. split; [exact Hh|exact Hl].
Defined.

(** The reversal at work on the scenario store: the two new point objects
    (locations 10 and 11) hold the reversed values [5 + 1 - 10] and
    [5 + 1 - 15], while the metrics objects of the entries still hold 10
    and 15. *)
Example reverse_writes_only_points :
  (λ σ', (σ' !! 10%positive, σ' !! 11%positive,
          σ' !! 2%positive, σ' !! 5%positive))
    ∘ snd
    <$> @buildTrendChart_st enUS 7%positive 8%positive "x"
          (withReverse true ratingOptions) scenarioStore
  = Some (Some (ObjPoint 1%positive (Number.ofZ (-4))),
          Some (ObjPoint 4%positive (Number.ofZ (-9))),
          Some (ObjMetrics {[ "x" := JNum (Number.ofZ 10) ]}),
          Some (ObjMetrics {[ "x" := JNum (Number.ofZ 15) ]})).
Proof. by vm_compute. Qed.

(** * Further properties *)

(** ** calculateTrend and makeArrowNode *)

(** The decimal digits of a number are never the empty string. *)
Lemma pretty_N_go_nonempty (x : N) (s : string) :
  s ≠ EmptyString → pretty_N_go x s ≠ EmptyString.
Proof.
  revert s. induction (N.lt_wf_0 x) as [x _ IH]. intros s Hs.
  destruct (decide (x = 0%N)) as [->|Hx].
  - by rewrite pretty_N_go_0.
  - rewrite pretty_N_go_step by lia. apply IH; [|done].
    apply N.div_lt; lia.
Qed.

Lemma pretty_Z_nonempty (z : Z) : pretty z ≠ EmptyString.
Proof.
  destruct z as [|p|p]; [done|..].
  - unfold pretty, pretty_Z, pretty, pretty_positive, pretty, pretty_N.
    destruct (decide (N.pos p = 0%N)); [done|].
    rewrite pretty_N_go_step by lia. by apply pretty_N_go_nonempty.
  - done.
Qed.

Lemma append_nonempty_r (a b : string) :
  b ≠ EmptyString → a ++ b ≠ EmptyString.
Proof. destruct a; [done|]. by intros _. Qed.

Lemma pointed_nonempty (f : nat) (n : Z) :
  Number.pointed f n ≠ EmptyString.
Proof.
  unfold Number.pointed. destruct f as [|f].
  - apply pretty_Z_nonempty.
  - cbv zeta. apply append_nonempty_r. done.
Qed.

Lemma deltaText_nonempty (delta : Qc) : deltaText delta ≠ EmptyString.
Proof.
  unfold deltaText. apply append_nonempty_r.
  destruct (Number.isInteger delta).
  - apply pretty_Z_nonempty.
  - unfold Number.toFixed. apply append_nonempty_r, pointed_nonempty.
Qed.


Lemma truthy_false (s : string) : truthy s = false ↔ s = EmptyString.
Proof.
  unfold truthy. rewrite negb_false_iff. apply String.eqb_eq.
Qed.

(** X1.  The three tests the callers make on a trend agree: its text is
    empty exactly when it has no arrow, exactly when it is the "no trend"
    descriptor.  So the arrow node and the delta text are always shown
    together or not at all. *)
Theorem calculateTrend_text_arrow_agree (metricHistory : list snapshot)
    (latestMetrics : gmap string jsval) (metricKey : string)
    (options : trendOptions) :
  let t := calculateTrend metricHistory latestMetrics metricKey options in
  (truthy (text t) = false ↔ t = noTrend)
  ∧ (arrow t = None ↔ t = noTrend)
  ∧ (makeArrowNode t = None ↔ t = noTrend)
  ∧ ∀ node, makeArrowNode t = Some node →
      style_color node = color t ∧ className node = "trend-arrow"
      ∧ Some (innerHTML node) = arrow t.
Proof.
  intros t.
  assert (Hshape : t = noTrend
                   ∨ ∃ delta a c, t = {| text := deltaText delta;
                                         arrow := Some a; color := c |}).
  { subst t. unfold calculateTrend, trendBetween.
    repeat case_match; eauto. }
  split; [|split; [|split]].
  - destruct Hshape as [->|(delta & a & c & ->)]; [done|]. simpl.
    split; [|done]. intros Hf%truthy_false.
    by apply deltaText_nonempty in Hf.
  - destruct Hshape as [->|(delta & a & c & ->)]; [done|]. by simpl.
  - unfold makeArrowNode.
    destruct Hshape as [->|(delta & a & c & ->)]; [done|]. by simpl.
  - intros node. unfold makeArrowNode.
    destruct (arrow t) as [a|]; [|done]. by intros [= <-].
Qed.

Lemma calculateTrend_text_arrow_agree_witness :
  arrow (calculateTrend [] ∅ "x" defaultTrendOptions) = None
  ∧ style_color
      {| className := "trend-arrow"; style_color := "var(--dash-trend-up)";
         style_display := "inline-flex"; innerHTML := svgUpRight |}
    = color (calculateTrend scenarioHistory scenarioLatest "x"
               defaultTrendOptions).
Proof.
  split.
  - apply (proj2 (proj1 (proj2 (calculateTrend_text_arrow_agree [] ∅ "x"
                                  defaultTrendOptions)))).
    reflexivity.
  - apply (proj2 (proj2 (proj2 (calculateTrend_text_arrow_agree
                                  scenarioHistory scenarioLatest "x"
                                  defaultTrendOptions)))).
    by vm_compute.
Defined.

(** X2.  The trend compares the latest metrics with the second-to-last
    entry only: the last entry and the entries before the second-to-last
    play no part, so two histories that end in the same second-to-last
    value for the key give the same trend. *)
Theorem calculateTrend_second_to_last_only
    (before1 before2 : list snapshot) (e1 e2 last1 last2 : snapshot)
    (latestMetrics : gmap string jsval) (metricKey : string)
    (options : trendOptions) :
  metrics e1 !! metricKey = metrics e2 !! metricKey →
  calculateTrend (before1 ++ [e1; last1]) latestMetrics metricKey options
  = calculateTrend (before2 ++ [e2; last2]) latestMetrics metricKey options.
Proof.
  intros He. unfold calculateTrend, previousValue.
  rewrite !length_app. cbn [length].
  destruct (Nat.ltb_spec (length before1 + 2) 2) as [?|_]; [lia|].
  destruct (Nat.ltb_spec (length before2 + 2) 2) as [?|_]; [lia|].
  replace (length before1 + 2 - 2)%nat with (length before1 + 0)%nat by lia.
  replace (length before2 + 2 - 2)%nat with (length before2 + 0)%nat by lia.
  rewrite !lookup_app_r by lia.
  replace (length before1 + 0 - length before1)%nat with 0%nat by lia.
  replace (length before2 + 0 - length before2)%nat with 0%nat by lia.
  cbn. by rewrite He.
Qed.

Lemma calculateTrend_second_to_last_only_witness :
  calculateTrend ([entry 1 "x" 3] ++ [entry 2 "x" 10; entry 3 "x" 99])
    scenarioLatest "x" defaultTrendOptions
  = calculateTrend ([] ++ [entry 1 "x" 10; entry 2 "x" 15])
      scenarioLatest "x" defaultTrendOptions.
Proof.
  apply (calculateTrend_second_to_last_only [entry 1 "x" 3] []
           (entry 2 "x" 10) (entry 1 "x" 10)).
  reflexivity.
Defined.

(** ** buildTrendChart: the summary line, the projection, the reversal *)


Lemma projectHistory_length (metricHistory : list snapshot)
    (metricKey : string) :
  (length (projectHistory metricHistory metricKey)
   ≤ length metricHistory)%nat.
Proof.
  induction metricHistory as [|e h IH]; [done|].
  rewrite projectHistory_cons. destruct (projectEntry metricKey e); simpl; lia.
Qed.



(** X4.  A chart whose latest value is null or missing still renders when
    the history has data: its headline is the dash of the default
    formatter, it has no arrow, and its text is "No trend" for a one-entry
    history and absent otherwise. *)
Theorem buildTrendChart_latest_missing `{Locale}
    (metricHistory : list snapshot) (latestMetrics : gmap string jsval)
    (metricKey : string) (options : chartOptions) :
  projectHistory metricHistory metricKey ≠ [] →
  isNullish (latestMetrics !! metricKey) = true →
  let c := buildTrendChart metricHistory latestMetrics metricKey options in
  is_Some (cardChart c)
  ∧ cardArrow c = None
  ∧ cardDelta c
    = (if (length metricHistory =? 1)%nat then Some "No trend" else None)
  ∧ (opt_valueFormat options = None → cardBig c = Some emDash).
Proof.
  intros Hne Hnull c.
  destruct (buildTrendChart_chart metricHistory latestMetrics metricKey
              options Hne) as (chart & Hc & Hcard & _).
  fold c in Hc, Hcard.
  assert (Htrend : ∀ o, calculateTrend metricHistory latestMetrics
                          metricKey o = noTrend).
  { intros o. unfold calculateTrend, trendBetween.
    destruct (_ <? _)%nat; [done|].
    destruct (previousValue metricHistory metricKey) as [[|p]|]; try done.
    by destruct (latestMetrics !! metricKey) as [[|c0]|]. }
  split; [by rewrite Hc|]. split; [|split].
  - rewrite Hcard. cbn [cardArrow]. by rewrite Htrend.
  - rewrite Hcard. cbn [cardDelta]. cbv zeta. rewrite Htrend.
    by destruct (_ =? _)%nat.
  - intros Hvf. rewrite Hcard. cbn [cardBig]. rewrite Hvf.
    unfold formatMetric.
    by destruct (latestMetrics !! metricKey) as [[|c0]|].
Qed.

Lemma buildTrendChart_latest_missing_witness :
  cardArrow (@buildTrendChart enUS scenarioHistory ∅ "x"
               (defaultOptions "Coverage")) = None
  ∧ cardBig (@buildTrendChart enUS scenarioHistory ∅ "x"
               (defaultOptions "Coverage")) = Some emDash.
Proof.
  destruct (@buildTrendChart_latest_missing enUS scenarioHistory ∅ "x"
              (defaultOptions "Coverage")) as (_ & Ha & _ & Hb).
  - discriminate.
  - reflexivity.
  - split; [exact Ha|]. by apply Hb.
Defined.

(** X5.  The projection keeps the chronological order of the history and
    drops exactly the entries without a value: the dates of the chart
    points are a subsequence of the dates of the history, and a point is
    in the chart exactly when some entry carries its date and holds its
    value for the key. *)
Theorem projectHistory_order (metricHistory : list snapshot)
    (metricKey : string) :
  sublist (point_date <$> projectHistory metricHistory metricKey)
    (date <$> metricHistory)
  ∧ (∀ p : point,
       p ∈ projectHistory metricHistory metricKey
       ↔ ∃ e, e ∈ metricHistory ∧ date e = point_date p
              ∧ metrics e !! metricKey = Some (JNum (point_value p)))
  ∧ (length (projectHistory metricHistory metricKey) = length metricHistory
     ↔ Forall (λ e, isNullish (metrics e !! metricKey) = false)
         metricHistory).
Proof.
  split; [|split].
  - induction metricHistory as [|e h IH]; [done|].
    rewrite projectHistory_cons. unfold projectEntry.
    destruct (metrics e !! metricKey) as [[|v]|]; cbn [fmap list_fmap].
    + by apply sublist_cons.
    + by apply sublist_skip.
    + by apply sublist_cons.
  - intros p. unfold projectHistory. rewrite list_elem_of_omap.
    split.
    + intros (e & He & Hp). exists e. split; [done|].
      unfold projectEntry in Hp.
      destruct (metrics e !! metricKey) as [[|v]|]; try done.
      by injection Hp as <-.
    + intros (e & He & Hd & Hv). exists e. split; [done|].
      unfold projectEntry. rewrite Hv, Hd. by destruct p.
  - pose proof (projectHistory_length) as Hle.
    induction metricHistory as [|e h IH]; [done|].
    rewrite projectHistory_cons. unfold projectEntry.
    rewrite Forall_cons. specialize (Hle h metricKey).
    destruct (metrics e !! metricKey) as [[|v]|]; cbn [length isNullish].
    + split; [lia|]. by intros [? _].
    + rewrite <- IH. split; [intros; split; [done|lia]|intros [_ ?]; lia].
    + split; [lia|]. by intros [? _].
Qed.

Lemma projectHistory_order_witness :
  {| point_date := Date.ofYMD 2024 3 2; point_value := Number.ofZ 15 |}
  ∈ projectHistory scenarioHistory "x".
Proof.
  apply (proj2 (proj1 (proj2 (projectHistory_order scenarioHistory "x")) _)).
  exists (entry 2 "x" 15). split; [|split; reflexivity].
  apply list_elem_of_lookup. by exists 1%nat.
Defined.



(** X7.  A chart of two or more points draws one series four times: an
    area from the baseline (the lower end of a fixed domain, else 0), a
    line, a dot per point and a tooltip per point, all over the plotted
    points, one per entry with a value; its time axis has no fixed
    domain. *)
Theorem buildTrendChart_multi_point `{Locale}
    (metricHistory : list snapshot) (latestMetrics : gmap string jsval)
    (metricKey : string) (options : chartOptions) :
  (2 ≤ length (projectHistory metricHistory metricKey))%nat →
  ∃ chart title,
    cardChart (buildTrendChart metricHistory latestMetrics metricKey options)
    = Some chart
    ∧ let data := plotted options (projectHistory metricHistory metricKey) in
      let color := default "var(--dash-trend-flat)" (opt_color options) in
      marks chart
      = [ areaY data
            (match opt_yDomain options with
             | Some (lo, _) => lo
             | None => 0%Qc
             end) color q1_10 "monotone-x";
          lineY data color q3_2 q7_10 "monotone-x";
          dot data color q6_10 q5_2;
          tip data title ]
      ∧ length data = length (projectHistory metricHistory metricKey)
      ∧ point_date <$> data
        = point_date <$> projectHistory metricHistory metricKey
      ∧ length (tipTexts (marks chart)) = length data
      ∧ x_domain (x chart) = None.
Proof.
  intros Hlen.
  destruct (buildTrendChart_chart metricHistory latestMetrics metricKey
              options) as (chart & Hc & _ & _ & _ & Hx & Hm).
  { intros Hnil. rewrite Hnil in Hlen. simpl in Hlen. lia. }
  set (pts := projectHistory metricHistory metricKey) in *.
  assert (Hone : (length pts =? 1)%nat = false) by (apply Nat.eqb_neq; lia).
  rewrite Hone in Hx, Hm. cbv zeta in Hm.
  eexists chart, _. split; [done|]. cbv zeta.
  split; [exact Hm|].
  assert (Hpl : length (plotted options pts) = length pts
                ∧ point_date <$> plotted options pts = point_date <$> pts).
  { unfold plotted. destruct (opt_reverse options); [|done].
    destruct (opt_yDomain options) as [[lo hi]|]; [|done].
    split; [apply length_map|].
    rewrite <- list_fmap_compose. by apply list_fmap_ext. }
  destruct Hpl as [Hl Hd]. repeat split; try done.
  rewrite Hm. cbn. by rewrite app_nil_r, length_fmap.
Qed.

Lemma buildTrendChart_multi_point_witness :
  ∃ chart,
    cardChart (@buildTrendChart enUS scenarioHistory scenarioLatest "x"
                 (defaultOptions "Coverage")) = Some chart
    ∧ length (tipTexts (marks chart)) = 2%nat.
Proof.
  destruct (@buildTrendChart_multi_point enUS scenarioHistory scenarioLatest
              "x" (defaultOptions "Coverage"))
    as (chart & title & Hc & _ & _ & _ & Ht & _).
  { vm_compute. lia. }
  exists chart. split; [exact Hc|]. exact Ht.
Defined.

(** ** percentBar *)

Lemma hundred_pos : (0 < PercentBar.hundred)%Qc.
Proof. apply ltb_lt. by vm_compute. Qed.

Lemma pos_neq_0 (m : Qc) : (0 < m)%Qc → m ≠ 0%Qc.
Proof. intros Hm ->. by apply Qclt_not_eq in Hm. Qed.

(** A level [k] is reached by the raw percentage exactly when [k] times
    the maximum is reached by a hundred times the value. *)
Lemma level_le (k value max : Qc) :
  (0 < max)%Qc →
  (k ≤ value / max * PercentBar.hundred)%Qc
  ↔ (k * max ≤ value * PercentBar.hundred)%Qc.
Proof.
  intros Hm. rewrite (Qcmult_le_mono_pos_r _ _ max Hm).
  assert ((value / max * PercentBar.hundred * max)%Qc
          = (value * PercentBar.hundred)%Qc) as ->; [|done].
  field. by apply pos_neq_0.
Qed.

Lemma level_ge (k value max : Qc) :
  (0 < max)%Qc →
  (value / max * PercentBar.hundred ≤ k)%Qc
  ↔ (value * PercentBar.hundred ≤ k * max)%Qc.
Proof.
  intros Hm. rewrite (Qcmult_le_mono_pos_r _ _ max Hm).
  assert ((value / max * PercentBar.hundred * max)%Qc
          = (value * PercentBar.hundred)%Qc) as ->; [|done].
  field. by apply pos_neq_0.
Qed.

Lemma max0_spec (x : Qc) :
  (0 ≤ PercentBar.max0 x)%Qc ∧ (x ≤ PercentBar.max0 x)%Qc
  ∧ (PercentBar.max0 x = 0%Qc ∨ PercentBar.max0 x = x).
Proof.
  unfold PercentBar.max0. destruct (Number.ltb x 0) eqn:Hx.
  - apply ltb_lt in Hx. split; [done|]. split; [by apply Qclt_le_weak|].
    by left.
  - apply ltb_ge in Hx. split; [done|]. split; [done|]. by right.
Qed.

Lemma min100_spec (x : Qc) :
  (PercentBar.min100 x ≤ PercentBar.hundred)%Qc
  ∧ (PercentBar.min100 x ≤ x)%Qc
  ∧ (PercentBar.min100 x = PercentBar.hundred ∨ PercentBar.min100 x = x).
Proof.
  unfold PercentBar.min100.
  destruct (Number.ltb PercentBar.hundred x) eqn:Hx.
  - apply ltb_lt in Hx. split; [done|]. split; [by apply Qclt_le_weak|].
    by left.
  - apply ltb_ge in Hx. split; [done|]. split; [done|]. by right.
Qed.

(** The clamped percentage for a non-zero maximum. *)
Lemma percent_nonzero (value max : Qc) :
  max ≠ 0%Qc →
  PercentBar.percent value max
  = Some (PercentBar.min100
            (PercentBar.max0 (value / max * PercentBar.hundred)%Qc)).
Proof.
  intros Hm%eqb_neq. unfold PercentBar.percent. by rewrite Hm.
Qed.

(** X8.  The fill of a percent bar never leaves the track: its width is a
    percentage between 0 and 100 whatever the value and the maximum are.
    For a positive maximum the width is 0 for a value of at most 0, 100
    for a value of at least the maximum, and the exact percentage in
    between.  The width is not a number only for 0 out of 0. *)
Theorem percentBar_width_bounds (value : Qc) (max height : option Qc)
    (color : option string) :
  let m := default PercentBar.hundred max in
  let w := PercentBar.fillWidth
             (PercentBar.percentBar value max height color) in
  (∀ p, w = Some p → (0 ≤ p)%Qc ∧ (p ≤ PercentBar.hundred)%Qc)
  ∧ (w = None ↔ m = 0%Qc ∧ value = 0%Qc)
  ∧ ((0 < m)%Qc →
     ((value ≤ 0)%Qc → w = Some 0%Qc)
     ∧ ((m ≤ value)%Qc → w = Some PercentBar.hundred)
     ∧ ((0 ≤ value)%Qc → (value ≤ m)%Qc →
        w = Some (value / m * PercentBar.hundred)%Qc)).
Proof.
  intros m w. subst w. unfold PercentBar.percentBar. cbn. fold m.
  split; [|split].
  - intros p. unfold PercentBar.percent.
    destruct (Number.eqb m 0).
    + destruct (Number.ltb 0 value).
      { intros [= <-]. split; [|done]. apply Qclt_le_weak, hundred_pos. }
      destruct (Number.ltb value 0); [|done].
      intros [= <-]. split; [done|]. apply Qclt_le_weak, hundred_pos.
    + intros [= <-].
      set (raw := (value / m * PercentBar.hundred)%Qc).
      destruct (min100_spec (PercentBar.max0 raw)) as (Hle & _ & _).
      split; [|done].
      destruct (min100_spec (PercentBar.max0 raw)) as (_ & _ & [->| ->]).
      * apply Qclt_le_weak, hundred_pos.
      * apply max0_spec.
  - unfold PercentBar.percent. destruct (Number.eqb m 0) eqn:Hm.
    + apply eqb_eq in Hm.
      destruct (Number.ltb 0 value) eqn:Hpos.
      { split; [done|]. intros [_ ->]. by rewrite ltb_irrefl in Hpos. }
      destruct (Number.ltb value 0) eqn:Hneg.
      { split; [done|]. intros [_ ->]. by rewrite ltb_irrefl in Hneg. }
      split; [|done]. intros _. split; [done|].
      apply ltb_ge in Hpos, Hneg. by apply Qcle_antisym.
    + apply eqb_neq in Hm. split; [done|]. by intros [? _].
  - intros Hm. rewrite (percent_nonzero _ _ (pos_neq_0 _ Hm)).
    set (raw := (value / m * PercentBar.hundred)%Qc).
    assert (H0 : (0 * m)%Qc = 0%Qc) by ring.
    assert (H1 : (PercentBar.hundred * m)%Qc
                 = (m * PercentBar.hundred)%Qc) by ring.
    split; [|split].
    + intros Hv.
      assert (Hraw : (raw ≤ 0)%Qc).
      { apply level_ge; [done|]. rewrite H0.
        assert ((0 * PercentBar.hundred)%Qc = 0%Qc) as <- by ring.
        by apply Qcmult_le_mono_pos_r; [apply hundred_pos|]. }
      assert (PercentBar.max0 raw = 0%Qc) as ->.
      { destruct (max0_spec raw) as (H0' & _ & [->| Heq]); [done|].
        rewrite Heq in *. by apply Qcle_antisym. }
      unfold PercentBar.min100.
      assert (Number.ltb PercentBar.hundred 0 = false) as ->; [|done].
      apply ltb_ge, Qclt_le_weak, hundred_pos.
    + intros Hv.
      assert (Hraw : (PercentBar.hundred ≤ raw)%Qc).
      { apply level_le; [done|]. rewrite H1.
        by apply Qcmult_le_mono_pos_r; [apply hundred_pos|]. }
      assert (PercentBar.max0 raw = raw) as ->.
      { unfold PercentBar.max0.
        assert (Number.ltb raw 0 = false) as ->; [|done].
        apply ltb_ge. etrans; [|exact Hraw].
        apply Qclt_le_weak, hundred_pos. }
      unfold PercentBar.min100.
      destruct (Number.ltb PercentBar.hundred raw) eqn:Hlt; [done|].
      apply ltb_ge in Hlt. f_equal. by apply Qcle_antisym.
    + intros Hlo Hhi.
      assert (Hraw0 : (0 ≤ raw)%Qc).
      { apply level_le; [done|]. rewrite H0.
        assert ((0 * PercentBar.hundred)%Qc = 0%Qc) as <- by ring.
        by apply Qcmult_le_mono_pos_r; [apply hundred_pos|]. }
      assert (Hraw1 : (raw ≤ PercentBar.hundred)%Qc).
      { apply level_ge; [done|]. rewrite H1.
        by apply Qcmult_le_mono_pos_r; [apply hundred_pos|]. }
      unfold PercentBar.max0, PercentBar.min100.
      assert (Number.ltb raw 0 = false) as -> by by apply ltb_ge.
      by assert (Number.ltb PercentBar.hundred raw = false) as ->
        by by apply ltb_ge.
Qed.

Lemma percentBar_width_bounds_witness :
  PercentBar.fillWidth
    (PercentBar.percentBar (Number.ofZ 250) None None None)
  = Some PercentBar.hundred.
Proof.
  apply (proj2 (proj2 (percentBar_width_bounds (Number.ofZ 250) None None
                         None))).
  - apply hundred_pos.
  - apply ltb_ge. by vm_compute.
Defined.



(** X10.  For a positive maximum the width of the fill grows with the
    value: a larger value never gives a narrower fill. *)
Theorem percentBar_monotone (value1 value2 max : Qc) :
  (0 < max)%Qc → (value1 ≤ value2)%Qc →
  ∃ p1 p2,
    PercentBar.percent value1 max = Some p1
    ∧ PercentBar.percent value2 max = Some p2
    ∧ (p1 ≤ p2)%Qc.
Proof.
  intros Hm Hv. rewrite !(percent_nonzero _ _ (pos_neq_0 _ Hm)).
  eexists _, _. split; [done|]. split; [done|].
  set (r1 := (value1 / max * PercentBar.hundred)%Qc).
  set (r2 := (value2 / max * PercentBar.hundred)%Qc).
  assert (Hr : (r1 ≤ r2)%Qc).
  { apply level_le; [done|].
    assert ((r1 * max)%Qc = (value1 * PercentBar.hundred)%Qc) as ->.
    { unfold r1. field. by apply pos_neq_0. }
    by apply Qcmult_le_mono_pos_r; [apply hundred_pos|]. }
  assert (Hmax : (PercentBar.max0 r1 ≤ PercentBar.max0 r2)%Qc).
  { destruct (max0_spec r1) as (_ & _ & [->| ->]); [apply max0_spec|].
    etrans; [exact Hr|]. apply max0_spec. }
  set (a := PercentBar.max0 r1) in *. set (b := PercentBar.max0 r2) in *.
  destruct (min100_spec b) as (_ & _ & [->| ->]); [apply min100_spec|].
  etrans; [|exact Hmax]. apply min100_spec.
Qed.

Lemma percentBar_monotone_witness :
  ∃ p1 p2,
    PercentBar.percent (Number.ofZ 20) PercentBar.hundred = Some p1
    ∧ PercentBar.percent (Number.ofZ 30) PercentBar.hundred = Some p2
    ∧ (p1 ≤ p2)%Qc.
Proof.
  apply percentBar_monotone.
  - apply hundred_pos.
  - apply ltb_ge. by vm_compute.
Defined.

(** ** segmentBar *)











(** The example bar: three quarters labelled, one quarter showing its
    value; the segment without a value has no child. *)
Example segmentBar_example :
  ∃ c1 c2,
    SegmentBar.segmentBar exampleSegments false EmptyString
    = SegmentBar.Bar "dash-segment-bar" [c1; c2]
    ∧ SegmentBar.sn_width c1 = Number.ofZ 75
    ∧ SegmentBar.sn_width c2 = Number.ofZ 25
    ∧ SegmentBar.sn_class c2 = "segment minor"
    ∧ SegmentBar.sn_content c1 = SegmentBar.LabelText "TypeScript"
    ∧ SegmentBar.sn_content c2 = SegmentBar.ValueText (Number.ofZ 1).
Proof.
  eexists _, _. split; [reflexivity|].
  split; [apply eqb_eq; by vm_compute|].
  split; [apply eqb_eq; by vm_compute|]. by vm_compute.
Qed.



(** ** metricGrid and summaryCard *)

Section Grid.
Context `{Locale}.

(** The card of a metric whose latest value is present. *)
Lemma cardFor_present (latestMetrics : gmap string jsval)
    (metricHistory : option (list snapshot)) (centered : bool)
    (metric : MetricGrid.metric) :
  isNullish (latestMetrics !! MetricGrid.m_key metric) = false →
  ∃ card,
    MetricGrid.cardFor latestMetrics metricHistory centered metric
    = Some card
    ∧ SummaryCard.heading card = MetricGrid.m_label metric.
Proof.
  intros Hv. unfold MetricGrid.cardFor. rewrite Hv. by eexists.
Qed.

Lemma cardFor_absent (latestMetrics : gmap string jsval)
    (metricHistory : option (list snapshot)) (centered : bool)
    (metric : MetricGrid.metric) :
  isNullish (latestMetrics !! MetricGrid.m_key metric) = true →
  MetricGrid.cardFor latestMetrics metricHistory centered metric = None.
Proof. intros Hv. unfold MetricGrid.cardFor. by rewrite Hv. Qed.

(** The headings of the cards: the labels of the metrics with a latest
    value, in order. *)
Lemma metricGrid_headings (metrics : list MetricGrid.metric)
    (latestMetrics : gmap string jsval)
    (metricHistory : option (list snapshot)) (centered : bool) :
  SummaryCard.heading
    <$> omap (MetricGrid.cardFor latestMetrics metricHistory centered)
          metrics
  = MetricGrid.m_label
      <$> filter (λ m, isNullish (latestMetrics !! MetricGrid.m_key m)
                       = false) metrics.
Proof.
  induction metrics as [|m l IH]; [done|].
  rewrite filter_cons. cbn [omap list_omap].
  destruct (isNullish (latestMetrics !! MetricGrid.m_key m)) eqn:Hv.
  - rewrite (cardFor_absent _ _ _ _ Hv).
    rewrite decide_False by done. exact IH.
  - destruct (cardFor_present _ metricHistory centered _ Hv)
      as (card & -> & Hh).
    rewrite decide_True by done. rewrite !fmap_cons, Hh. f_equal. exact IH.
Qed.

End Grid.

(** X13.  The metric grid has one card per metric whose latest value is
    present, in the order of the metrics and headed by their labels; a
    value of 0 is present.  When no metric has a latest value the grid is
    the empty string, not an empty section. *)
Theorem metricGrid_cards `{Locale} (metrics : list MetricGrid.metric)
    (latestMetrics : gmap string jsval)
    (metricHistory : option (list snapshot)) (o : MetricGrid.gridOptions) :
  let shown :=
    filter (λ m, isNullish (latestMetrics !! MetricGrid.m_key m) = false)
      metrics in
  (MetricGrid.metricGrid metrics latestMetrics metricHistory o = None
   ↔ shown = [])
  ∧ (∀ grid,
       MetricGrid.metricGrid metrics latestMetrics metricHistory o
       = Some grid →
       SummaryCard.heading <$> MetricGrid.cards grid
       = MetricGrid.m_label <$> shown
       ∧ MetricGrid.cols grid = MetricGrid.g_cols o)
  ∧ (∀ m, m ∈ metrics →
          latestMetrics !! MetricGrid.m_key m = Some (JNum 0%Qc) →
          m ∈ shown).
Proof.
  intros shown.
  pose proof (metricGrid_headings metrics latestMetrics metricHistory
                (MetricGrid.g_centered o)) as Hh. fold shown in Hh.
  unfold MetricGrid.metricGrid.
  set (cards := omap _ metrics) in *.
  assert (Hlen : length cards = length shown).
  { by rewrite <- (length_fmap SummaryCard.heading), Hh, length_fmap. }
  split; [|split].
  - destruct (Nat.eqb_spec (length cards) 0) as [H0|H0].
    + split; [|done]. intros _. apply nil_length_inv. lia.
    + split; [done|]. intros Hs. rewrite Hs in Hlen. simpl in Hlen. lia.
  - intros grid. destruct (length cards =? 0)%nat; [done|].
    by intros [= <-].
  - intros m Hin Hv. apply list_elem_of_filter. by rewrite Hv.
Qed.

Lemma metricGrid_cards_witness :
  @MetricGrid.metricGrid enUS [bugsMetric] scenarioLatest
    (Some scenarioHistory) exampleGridOptions
  = None.
Proof.
  apply (proj1 (@metricGrid_cards enUS [bugsMetric] scenarioLatest
                  (Some scenarioHistory) exampleGridOptions)).
  reflexivity.
Defined.



(** The grid of the scenario: one card, "15%" with "+5% from previous";
    the metric without a latest value has no card. *)
Example metricGrid_example :
  (λ g, (λ c, (SummaryCard.heading c, SummaryCard.valueDisplay c,
               SummaryCard.tl_text <$> SummaryCard.trendHtml c))
          <$> MetricGrid.cards g)
    <$> @MetricGrid.metricGrid enUS [bugsMetric; coverageMetric]
          scenarioLatest (Some scenarioHistory) exampleGridOptions
  = Some [ ("Coverage", SummaryCard.BigValue EmptyString "15%",
            Some "+5% from previous") ].
Proof. by vm_compute. Qed.

(** ** filterToggle and filterRow *)

Lemma filterToggle_styled (cfg : FilterRow.tagConfig) (active : bool) :
  FilterRow.styled cfg
    (FilterRow.filterToggle (FilterRow.tag_label cfg)
       (FilterRow.tag_count cfg) (FilterRow.tag_color cfg)
       (FilterRow.tag_bgAlpha cfg) active).
Proof. by destruct active. Qed.

Lemma click_styled (cfg : FilterRow.tagConfig) (btn : FilterRow.button) :
  FilterRow.styled cfg btn →
  FilterRow.styled cfg
    (FilterRow.click (FilterRow.tag_color cfg) (FilterRow.tag_bgAlpha cfg)
       btn).1.
Proof.
  intros (Hl & Hc & _). unfold FilterRow.click.
  by destruct (FilterRow.btn_active btn).
Qed.

Lemma setOne_styled (active : bool) (cfg : FilterRow.tagConfig)
    (btn : FilterRow.button) :
  FilterRow.styled cfg btn →
  FilterRow.styled cfg (FilterRow.setOne active cfg btn)
  ∧ FilterRow.btn_active (FilterRow.setOne active cfg btn) = active.
Proof. intros (Hl & Hc & _). by destruct active. Qed.

Lemma setAll_styled (active : bool) (tagConfigs : list FilterRow.tagConfig)
    (buttons : list FilterRow.button) :
  Forall2 FilterRow.styled tagConfigs buttons →
  Forall2 FilterRow.styled tagConfigs
    (FilterRow.setAll active tagConfigs buttons)
  ∧ Forall (λ btn, FilterRow.btn_active btn = active)
      (FilterRow.setAll active tagConfigs buttons).
Proof.
  induction 1 as [|cfg btn cfgs btns Hs _ [IH1 IH2]]; [done|].
  cbn [FilterRow.setAll].
  destruct (setOne_styled active cfg btn Hs) as [? ?].
  split; by constructor.
Qed.

(** A button whose style fits its state is determined by its state. *)
Lemma styled_eq (cfg : FilterRow.tagConfig) (b1 b2 : FilterRow.button) :
  FilterRow.styled cfg b1 → FilterRow.styled cfg b2 →
  FilterRow.btn_active b1 = FilterRow.btn_active b2 → b1 = b2.
Proof.
  intros (Hl1 & Hc1 & Hs1) (Hl2 & Hc2 & Hs2) Ha.
  destruct b1, b2. cbn in *. subst.
  destruct btn_active0; by simplify_eq.
Qed.

Lemma step_styled (tagConfigs : list FilterRow.tagConfig)
    (hasOnToggle : bool) (st : FilterRow.rowState) (a : FilterRow.action) :
  Forall2 FilterRow.styled tagConfigs (FilterRow.buttons st) →
  Forall2 FilterRow.styled tagConfigs
    (FilterRow.buttons (FilterRow.step tagConfigs hasOnToggle st a)).
Proof.
  intros Hst. destruct a as [i|active]; unfold FilterRow.step.
  - destruct (FilterRow.buttons st !! i) as [btn|] eqn:Hb; [|done].
    destruct (tagConfigs !! i) as [cfg|] eqn:Hc; [|done].
    pose proof (click_styled cfg btn) as Hclick.
    destruct (FilterRow.click _ _ btn) as [btn' isActive].
    cbn [fst FilterRow.buttons] in *.
    assert (cfgs_eq : tagConfigs = <[i := cfg]> tagConfigs)
      by by rewrite list_insert_id.
    rewrite cfgs_eq. apply Forall2_insert; [done|]. apply Hclick.
    by eapply Forall2_lookup_lr.
  - by apply setAll_styled.
Qed.

Lemma run_snoc (tagConfigs : list FilterRow.tagConfig) (hasOnToggle : bool)
    (actions : list FilterRow.action) (a : FilterRow.action) :
  FilterRow.run tagConfigs hasOnToggle (actions ++ [a])
  = FilterRow.step tagConfigs hasOnToggle
      (FilterRow.run tagConfigs hasOnToggle actions) a.
Proof. unfold FilterRow.run. by rewrite foldl_app. Qed.

Lemma run_styled (tagConfigs : list FilterRow.tagConfig)
    (hasOnToggle : bool) (actions : list FilterRow.action) :
  Forall2 FilterRow.styled tagConfigs
    (FilterRow.buttons (FilterRow.run tagConfigs hasOnToggle actions)).
Proof.
  induction actions as [|a actions IH] using rev_ind.
  - cbn. unfold FilterRow.filterRow. apply Forall2_fmap_r.
    apply Forall_Forall2_diag, Forall_forall. intros cfg _.
    apply filterToggle_styled.
  - rewrite run_snoc. by apply step_styled.
Qed.

(** X15.  The row keeps every button's look in step with its state.
    After any sequence of clicks and [setAll] calls there is one button
    per tag config, with the config's label and count, and the button
    carries the config's colours exactly when it is active and no inline
    colours when it is not.  A button starts active unless its config
    says [active: false]. *)
Theorem filterRow_styled (tagConfigs : list FilterRow.tagConfig)
    (hasOnToggle : bool) (actions : list FilterRow.action) :
  Forall2 FilterRow.styled tagConfigs
    (FilterRow.buttons (FilterRow.run tagConfigs hasOnToggle actions))
  ∧ FilterRow.btn_active <$> FilterRow.filterRow tagConfigs
    = FilterRow.initiallyActive <$> tagConfigs.
Proof.
  split; [apply run_styled|].
  unfold FilterRow.filterRow. rewrite <- list_fmap_compose.
  apply list_fmap_ext. intros _ cfg _. cbn.
  by destruct (FilterRow.initiallyActive cfg).
Qed.

(** One click on a button of the row. *)
Lemma step_click (tagConfigs : list FilterRow.tagConfig)
    (hasOnToggle : bool) (st : FilterRow.rowState) (i : nat)
    (cfg : FilterRow.tagConfig) (btn : FilterRow.button) :
  tagConfigs !! i = Some cfg →
  FilterRow.buttons st !! i = Some btn →
  FilterRow.step tagConfigs hasOnToggle st (FilterRow.Click i)
  = {| FilterRow.buttons :=
         <[i := (FilterRow.click (FilterRow.tag_color cfg)
                   (FilterRow.tag_bgAlpha cfg) btn).1]>
           (FilterRow.buttons st);
       FilterRow.calls :=
         if hasOnToggle
         then (FilterRow.calls st
                 ++ [(FilterRow.tag_label cfg,
                      negb (FilterRow.btn_active btn))])%list
         else FilterRow.calls st |}.
Proof. intros Hcfg Hbtn. unfold FilterRow.step. by rewrite Hbtn, Hcfg. Qed.

Lemma click_active (color bgAlpha : string) (btn : FilterRow.button) :
  FilterRow.btn_active (FilterRow.click color bgAlpha btn).1
  = negb (FilterRow.btn_active btn).
Proof. unfold FilterRow.click. by destruct (FilterRow.btn_active btn). Qed.

(** X16.  Two clicks on the same button undo each other: the row is as
    it was before them, and the caller's [onToggle], when there is one,
    has been called twice with the button's label, first with the new
    state and then with the old one. *)
Theorem filterRow_click_twice (tagConfigs : list FilterRow.tagConfig)
    (hasOnToggle : bool) (actions : list FilterRow.action) (i : nat)
    (cfg : FilterRow.tagConfig) (btn : FilterRow.button) :
  let st := FilterRow.run tagConfigs hasOnToggle actions in
  let st' := FilterRow.run tagConfigs hasOnToggle
               (actions ++ [FilterRow.Click i; FilterRow.Click i]) in
  tagConfigs !! i = Some cfg →
  FilterRow.buttons st !! i = Some btn →
  FilterRow.buttons st' = FilterRow.buttons st
  ∧ FilterRow.calls st'
    = (FilterRow.calls st
         ++ (if hasOnToggle
             then [ (FilterRow.tag_label cfg,
                     negb (FilterRow.btn_active btn));
                    (FilterRow.tag_label cfg, FilterRow.btn_active btn) ]
             else []))%list.
Proof.
  intros st st' Hcfg Hbtn. subst st'.
  assert (Happ : (actions ++ [FilterRow.Click i; FilterRow.Click i]
                  = (actions ++ [FilterRow.Click i])
                      ++ [FilterRow.Click i])%list)
    by by rewrite <- app_assoc.
  rewrite Happ, !run_snoc. fold st.
  pose proof (run_styled tagConfigs hasOnToggle actions) as Hst.
  fold st in Hst.
  pose proof (Forall2_lookup_lr _ _ _ _ _ _ Hst Hcfg Hbtn) as Hs.
  assert (Hlt : (i < length (FilterRow.buttons st))%nat)
    by by eapply lookup_lt_Some.
  rewrite (step_click _ _ st i cfg btn Hcfg Hbtn).
  set (btn1 := (FilterRow.click (FilterRow.tag_color cfg)
                  (FilterRow.tag_bgAlpha cfg) btn).1).
  rewrite (step_click _ _ _ i cfg btn1 Hcfg)
    by (cbn; by rewrite list_lookup_insert_eq).
  cbn [FilterRow.buttons FilterRow.calls].
  set (btn2 := (FilterRow.click (FilterRow.tag_color cfg)
                  (FilterRow.tag_bgAlpha cfg) btn1).1).
  assert (Hb1 : FilterRow.btn_active btn1 = negb (FilterRow.btn_active btn))
    by apply click_active.
  assert (Hb2 : btn2 = btn).
  { apply (styled_eq cfg); [|done|].
    - by do 2 apply click_styled.
    - unfold btn2. rewrite click_active, Hb1. apply negb_involutive. }
  rewrite Hb2, Hb1, negb_involutive. split.
  - rewrite list_insert_insert_eq. by apply list_insert_id.
  - destruct hasOnToggle; [|by rewrite app_nil_r].
    by rewrite <- app_assoc.
Qed.

Lemma filterRow_click_twice_witness :
  FilterRow.buttons
    (FilterRow.run exampleTags true
       ([FilterRow.SetAll true] ++ [FilterRow.Click 1; FilterRow.Click 1]))
  = FilterRow.buttons (FilterRow.run exampleTags true [FilterRow.SetAll true]).
Proof.
  refine (proj1 (filterRow_click_twice exampleTags true
                   [FilterRow.SetAll true] 1 _ _ _ _)); reflexivity.
Defined.

(** [setAll] leaves a row alone whose buttons are already in the state
    it sets. *)
Lemma setAll_id (active : bool) (tagConfigs : list FilterRow.tagConfig)
    (buttons : list FilterRow.button) :
  Forall2 FilterRow.styled tagConfigs buttons →
  Forall (λ btn, FilterRow.btn_active btn = active) buttons →
  FilterRow.setAll active tagConfigs buttons = buttons.
Proof.
  induction 1 as [|cfg btn cfgs btns Hs _ IH]; [done|].
  intros [Ha Hact]%Forall_cons. cbn [FilterRow.setAll].
  rewrite IH by done. f_equal.
  destruct (setOne_styled active cfg btn Hs) as [Hs' Ha'].
  apply (styled_eq cfg); [done..|]. by rewrite Ha'.
Qed.

(** X17.  What [setAll] and a click do to the row.  [setAll(active)]
    puts every button in the given state and never calls [onToggle];
    running it twice is the same as running it once.  A click changes the
    clicked button only, flips its state, and calls [onToggle] once with
    the tag's label and the new state. *)
Theorem filterRow_setAll_click (tagConfigs : list FilterRow.tagConfig)
    (hasOnToggle : bool) (actions : list FilterRow.action) :
  let st := FilterRow.run tagConfigs hasOnToggle actions in
  (∀ active,
     let st' := FilterRow.step tagConfigs hasOnToggle st
                  (FilterRow.SetAll active) in
     Forall (λ btn, FilterRow.btn_active btn = active)
       (FilterRow.buttons st')
     ∧ length (FilterRow.buttons st') = length tagConfigs
     ∧ FilterRow.calls st' = FilterRow.calls st
     ∧ FilterRow.step tagConfigs hasOnToggle st' (FilterRow.SetAll active)
       = st')
  ∧ (∀ i cfg btn,
       tagConfigs !! i = Some cfg →
       FilterRow.buttons st !! i = Some btn →
       let st' := FilterRow.step tagConfigs hasOnToggle st
                    (FilterRow.Click i) in
       (∀ j, j ≠ i →
             FilterRow.buttons st' !! j = FilterRow.buttons st !! j)
       ∧ (∃ btn', FilterRow.buttons st' !! i = Some btn'
                  ∧ FilterRow.btn_active btn'
                    = negb (FilterRow.btn_active btn))
       ∧ FilterRow.calls st'
         = (FilterRow.calls st
              ++ (if hasOnToggle
                  then [(FilterRow.tag_label cfg,
                         negb (FilterRow.btn_active btn))]
                  else []))%list).
Proof.
  intros st.
  pose proof (run_styled tagConfigs hasOnToggle actions) as Hst.
  fold st in Hst. split.
  - intros active st'. subst st'. cbn [FilterRow.step FilterRow.buttons
      FilterRow.calls].
    destruct (setAll_styled active tagConfigs _ Hst) as [Hst' Hact].
    split; [done|]. split; [by rewrite <- (Forall2_length _ _ _ Hst')|].
    split; [done|]. f_equal. by apply setAll_id.
  - intros i cfg btn Hcfg Hbtn st'. subst st'.
    rewrite (step_click _ _ st i cfg btn Hcfg Hbtn).
    cbn [FilterRow.buttons FilterRow.calls].
    assert (Hlt : (i < length (FilterRow.buttons st))%nat)
      by by eapply lookup_lt_Some.
    split; [|split].
    + intros j Hj. by rewrite list_lookup_insert_ne.
    + eexists. split; [by apply list_lookup_insert_eq|].
      apply click_active.
    + destruct hasOnToggle; [done|by rewrite app_nil_r].
Qed.

Lemma filterRow_setAll_click_witness :
  ∃ btn',
    FilterRow.buttons
      (FilterRow.step exampleTags true (FilterRow.run exampleTags true [])
         (FilterRow.Click 1)) !! 1%nat = Some btn'
    ∧ FilterRow.btn_active btn' = true.
Proof.
  destruct (proj2 (filterRow_setAll_click exampleTags true []) 1%nat
              _ _ eq_refl eq_refl) as (_ & Hb & _).
  exact Hb.
Defined.

(** The example row: the second tag starts inactive and unstyled; a
    click styles it and reports its label. *)
Example filterRow_example :
  let st := FilterRow.run exampleTags true [FilterRow.Click 1] in
  (λ b, (FilterRow.btn_active b, FilterRow.btn_borderColor b))
    <$> FilterRow.filterRow exampleTags
  = [(true, "#ef4444"); (false, EmptyString)]
  ∧ (λ b, (FilterRow.btn_active b, FilterRow.btn_borderColor b))
      <$> FilterRow.buttons st
    = [(true, "#ef4444"); (true, "#eab308")]
  ∧ FilterRow.calls st = [("smell", true)].
Proof. by vm_compute. Qed.

(** ** dataTable *)

Lemma fromEntries_from_notin {V : Type} (m : gmap string V)
    (entries : list (string * V)) (k : string) :
  k ∉ entries.*1 →
  foldl (λ m e, <[e.1 := e.2]> m) m entries !! k = m !! k.
Proof.
  revert m. induction entries as [|[k' v] es IH]; intros m Hk; [done|].
  cbn in *. apply not_elem_of_cons in Hk as [Hne Hk].
  rewrite IH by done. by rewrite lookup_insert_ne.
Qed.

(** Reading the object that [Object.fromEntries] builds: the last entry
    of a key gives its value, and a key without an entry is missing. *)
Lemma fromEntries_lookup {V : Type} (entries : list (string * V))
    (k : string) :
  (k ∉ entries.*1 → DataTable.fromEntries entries !! k = None)
  ∧ ∀ before v after,
      entries = (before ++ (k, v) :: after)%list → k ∉ after.*1 →
      DataTable.fromEntries entries !! k = Some v.
Proof.
  unfold DataTable.fromEntries. split.
  - intros Hk. by rewrite fromEntries_from_notin.
  - intros before v after -> Hk. rewrite foldl_app. cbn.
    rewrite fromEntries_from_notin by done. apply lookup_insert_eq.
Qed.

(** X18.  The options [dataTable] hands to the table widget.  The
    columns are the keys in order.  The last column of a key gives the
    header of that key, and its formatter when it has one; a key that no
    column has gets no header, and a key whose columns have no formatter
    gets none.  The table sorts by the first column unless [sortable] is
    false or there is no column, and shows 25 rows a page by default. *)
Theorem dataTable_options {F : Type} (columns : list (DataTable.column F))
    (sortable : option bool) (pageSize : option Z) :
  let t := DataTable.dataTable columns sortable pageSize in
  DataTable.t_columns t = DataTable.col_key <$> columns
  ∧ (∀ before c after,
       columns = (before ++ c :: after)%list →
       DataTable.col_key c ∉ DataTable.col_key <$> after →
       DataTable.t_header t !! DataTable.col_key c
       = Some (DataTable.col_label c)
       ∧ ∀ f, DataTable.col_format c = Some f →
              DataTable.t_format t !! DataTable.col_key c = Some f)
  ∧ (∀ k, k ∉ DataTable.col_key <$> columns →
          DataTable.t_header t !! k = None)
  ∧ (∀ k, (∀ c, c ∈ columns → DataTable.col_key c = k →
                DataTable.col_format c = None) →
          DataTable.t_format t !! k = None)
  ∧ DataTable.t_sort t
    = (if default true sortable then DataTable.col_key <$> head columns
       else None)
  ∧ DataTable.t_rows t = default 25 pageSize.
Proof.
  intros t. subst t. unfold DataTable.dataTable.
  cbn [DataTable.t_columns DataTable.t_header DataTable.t_format
       DataTable.t_sort DataTable.t_rows].
  split; [done|]. split; [|split; [|split; [|done]]].
  - intros before c after -> Hk. split.
    + apply (proj2 (fromEntries_lookup _ _)
               ((λ c, (DataTable.col_key c, DataTable.col_label c))
                  <$> before) _
               ((λ c, (DataTable.col_key c, DataTable.col_label c))
                  <$> after)).
      * by rewrite map_app.
      * by rewrite <- list_fmap_compose.
    + intros f Hf.
      set (g := λ c : DataTable.column F,
                  match DataTable.col_format c with
                  | Some f => Some (DataTable.col_key c, f)
                  | None => None
                  end).
      apply (proj2 (fromEntries_lookup _ _) (omap g before) _
               (omap g after)).
      * rewrite omap_app. cbn. unfold g at 2. by rewrite Hf.
      * intros (e & He & Hin)%list_elem_of_fmap.
        apply list_elem_of_omap in Hin as (c' & Hc' & Hg).
        apply Hk. apply list_elem_of_fmap. exists c'. split; [|done].
        unfold g in Hg. destruct (DataTable.col_format c'); [|done].
        injection Hg as <-. by rewrite He.
  - intros k Hk. apply fromEntries_lookup.
    by rewrite <- list_fmap_compose.
  - intros k Hnone. apply fromEntries_lookup.
    intros (e & He & Hin)%list_elem_of_fmap.
    apply list_elem_of_omap in Hin as (c & Hc & Hg).
    destruct (DataTable.col_format c) as [f|] eqn:Hf; [|done].
    injection Hg as <-. cbn in He. symmetry in He.
    by rewrite (Hnone c Hc He) in Hf.
Qed.

Lemma dataTable_options_witness :
  DataTable.t_header (DataTable.dataTable exampleColumns None None)
    !! "size" = Some "Size"
  ∧ DataTable.t_format (DataTable.dataTable exampleColumns None None)
      !! "size" = Some " kB".
Proof.
  destruct (proj1 (proj2 (dataTable_options exampleColumns None None))
              [ {| DataTable.col_key := "name";
                   DataTable.col_label := "Name";
                   DataTable.col_format := None |} ]
              {| DataTable.col_key := "size"; DataTable.col_label := "Size";
                 DataTable.col_format := Some " kB" |} [] eq_refl)
    as [Hh Hf].
  - apply not_elem_of_nil.
  - split; [exact Hh|]. by apply Hf.
Defined.

(** ** More on calculateTrend *)

Lemma Qnum_neg (x : Qc) : (x < 0)%Qc → (Qnum x < 0)%Z.
Proof.
  intros Hx. unfold Qclt, Qlt in Hx. simpl in Hx. lia.
Qed.

(** X19.  The first character of the delta text and the arrow tell the
    same story: an increase reads "+..." with the up arrow, a decrease
    reads "-..." with the down arrow, and no change reads "0" with the
    flat arrow. *)
Theorem calculateTrend_sign (metricHistory : list snapshot)
    (latestMetrics : gmap string jsval) (metricKey : string)
    (options : trendOptions) (p c : Qc) :
  (2 ≤ length metricHistory)%nat →
  previousValue metricHistory metricKey = Some (JNum p) →
  latestMetrics !! metricKey = Some (JNum c) →
  let t := calculateTrend metricHistory latestMetrics metricKey options in
  ((p < c)%Qc →
   arrow t = Some svgUpRight ∧ ∃ rest, text t = String "+" rest)
  ∧ ((c < p)%Qc →
     arrow t = Some svgDownRight ∧ ∃ rest, text t = String "-" rest)
  ∧ (c = p → arrow t = Some svgFlat ∧ text t = "0").
Proof.
  intros Hlen Hp Hc t. subst t.
  rewrite (calculateTrend_present _ _ _ _ p c) by done. cbv zeta.
  set (delta := (c - p)%Qc).
  split; [|split].
  - intros Hlt.
    assert (Hpos : (0 < delta)%Qc).
    { apply Qclt_minus_iff in Hlt. by unfold delta, Qcminus. }
    assert (Number.eqb delta 0 = false) as ->.
    { apply eqb_neq. intros E. rewrite E in Hpos.
      by apply Qclt_not_eq in Hpos. }
    apply ltb_lt in Hpos as Hpos'. cbn. rewrite Hpos'.
    split; [done|]. unfold deltaText. rewrite Hpos'. by eexists.
  - intros Hlt.
    assert (Hneg : (delta < 0)%Qc).
    { apply Qclt_minus_iff. apply Qclt_minus_iff in Hlt.
      assert ((0 + - delta)%Qc = (p + - c)%Qc) as -> by (unfold delta; ring).
      done. }
    assert (Number.eqb delta 0 = false) as ->.
    { apply eqb_neq. intros E. rewrite E in Hneg.
      by apply Qclt_not_eq in Hneg. }
    assert (Hnpos : Number.ltb 0 delta = false).
    { apply ltb_ge. by apply Qclt_le_weak. }
    cbn. rewrite Hnpos. split; [done|].
    unfold deltaText. rewrite Hnpos.
    destruct (Number.isInteger delta); cbn [String.append].
    + unfold Number.toString. pose proof (Qnum_neg _ Hneg) as Hn.
      destruct (Qnum delta) as [|q|q]; try lia. by eexists.
    + unfold Number.toFixed. apply ltb_lt in Hneg. rewrite Hneg.
      by eexists.
  - intros Heq.
    assert (Hz : delta = 0%Qc) by (unfold delta; rewrite Heq; ring).
    rewrite Hz. by vm_compute.
Qed.

Lemma calculateTrend_sign_witness :
  arrow (calculateTrend scenarioHistory scenarioLatest "x"
           defaultTrendOptions) = Some svgUpRight
  ∧ ∃ rest,
      text (calculateTrend scenarioHistory scenarioLatest "x"
              defaultTrendOptions) = String "+" rest.
Proof.
  apply (proj1 (calculateTrend_sign scenarioHistory scenarioLatest "x"
                  defaultTrendOptions (Number.ofZ 10) (Number.ofZ 15)
                  ltac:(simpl; lia) eq_refl eq_refl)).
  apply ltb_lt. by vm_compute.
Defined.

Lemma ltb_opp (x y : Qc) : Number.ltb (- x) (- y) = Number.ltb y x.
Proof.
  unfold Number.ltb. apply bool_decide_ext.
  rewrite (Qclt_minus_iff (- x) (- y)), (Qclt_minus_iff y x).
  by assert ((- y + - - x)%Qc = (x + - y)%Qc) as -> by ring.
Qed.

(** X20.  Polarity and direction are two sides of one coin: with
    [inverse] a change is coloured as the opposite change is coloured
    without it, while the arrows of the two opposite changes are the
    mirror images of each other. *)
Theorem calculateTrend_inverse_is_swap
    (history1 history2 : list snapshot)
    (latest1 latest2 : gmap string jsval) (metricKey : string)
    (inv n : bool) (a b : Qc) :
  (2 ≤ length history1)%nat → (2 ≤ length history2)%nat →
  previousValue history1 metricKey = Some (JNum a) →
  latest1 !! metricKey = Some (JNum b) →
  previousValue history2 metricKey = Some (JNum b) →
  latest2 !! metricKey = Some (JNum a) →
  let t1 := calculateTrend history1 latest1 metricKey
              {| inverse := inv; neutral := n |} in
  let t2 := calculateTrend history2 latest2 metricKey
              {| inverse := negb inv; neutral := n |} in
  color t1 = color t2
  ∧ (arrow t1 = Some svgUpRight ↔ arrow t2 = Some svgDownRight)
  ∧ (arrow t1 = Some svgFlat ↔ arrow t2 = Some svgFlat).
Proof.
  intros Hl1 Hl2 Hp1 Hc1 Hp2 Hc2 t1 t2. subst t1 t2.
  rewrite (calculateTrend_present _ _ _ _ a b) by done.
  rewrite (calculateTrend_present _ _ _ _ b a) by done. cbv zeta.
  set (d := (b - a)%Qc).
  assert (Hd : (a - b)%Qc = (- d)%Qc) by (unfold d; ring). rewrite Hd.
  assert (Hz : Number.eqb (- d) 0 = Number.eqb d 0).
  { destruct (Number.eqb d 0) eqn:E.
    - apply eqb_eq in E. rewrite E. by vm_compute.
    - apply eqb_neq in E. apply eqb_neq. intros E'. apply E.
      assert (d = (- - d)%Qc) as -> by ring. rewrite E'. ring. }
  assert (H0 : (- 0)%Qc = 0%Qc) by ring.
  assert (Hneg : Number.ltb (- d) 0 = Number.ltb 0 d)
    by (rewrite <- H0 at 1; apply ltb_opp).
  assert (Hpos : Number.ltb 0 (- d) = Number.ltb d 0)
    by (rewrite <- H0 at 1; apply ltb_opp).
  rewrite Hz, Hneg, Hpos.
  destruct (Number.eqb d 0) eqn:E; cbn; [done|].
  apply eqb_neq in E. rewrite (ltb_0_flip d E).
  destruct n, inv, (Number.ltb 0 d); cbn; repeat split; intros; done.
Qed.

Lemma calculateTrend_inverse_is_swap_witness :
  color (calculateTrend scenarioHistory scenarioLatest "x"
           {| inverse := true; neutral := false |})
  = color (calculateTrend [entry 1 "x" 15; entry 2 "x" 15]
             {[ "x" := JNum (Number.ofZ 10) ]} "x"
             {| inverse := negb true; neutral := false |}).
Proof.
  refine (proj1 (calculateTrend_inverse_is_swap scenarioHistory
                   [entry 1 "x" 15; entry 2 "x" 15] scenarioLatest
                   {[ "x" := JNum (Number.ofZ 10) ]} "x" true false
                   (Number.ofZ 10) (Number.ofZ 15) _ _ _ _ _ _));
    try reflexivity; simpl; lia.
Defined.

(** ** Tick labels: trimming after toFixed *)

Lemma append_cons (c : ascii) (a b : string) :
  String c a ++ b = String c (a ++ b).
Proof. reflexivity. Qed.

Lemma append_assoc (a b c : string) : (a ++ b) ++ c = a ++ (b ++ c).
Proof.
  induction a as [|x a IH]; [done|]. rewrite !append_cons. by rewrite IH.
Qed.

Lemma hasDot_app (a b : string) : hasDot (a ++ b) = hasDot a || hasDot b.
Proof.
  induction a as [|c a IH]; [done|]. rewrite append_cons. cbn [hasDot].
  rewrite IH. by rewrite orb_assoc.
Qed.

Lemma hasDot_zeros (n : nat) : hasDot (Number.zeros n) = false.
Proof. induction n as [|n IH]; [done|]. cbn. exact IH. Qed.

Lemma hasDot_substring (s : string) (i n : nat) :
  hasDot s = false → hasDot (substring i n s) = false.
Proof.
  revert i n. induction s as [|c s IH]; intros i n Hs.
  - by destruct i, n.
  - cbn in Hs. apply orb_false_iff in Hs as [Hc Hs].
    destruct i as [|i]; cbn.
    + destruct n as [|n]; [done|]. cbn. rewrite Hc. by apply IH.
    + by apply IH.
Qed.

Lemma pretty_N_char_no_dot (x : N) :
  Ascii.eqb (pretty_N_char x) "." = false.
Proof. unfold pretty_N_char. by repeat case_match. Qed.

Lemma hasDot_pretty_N_go (x : N) (s : string) :
  hasDot s = false → hasDot (pretty_N_go x s) = false.
Proof.
  revert s. induction (N.lt_wf_0 x) as [x _ IH]. intros s Hs.
  destruct (decide (x = 0%N)) as [->|Hx].
  - by rewrite pretty_N_go_0.
  - rewrite pretty_N_go_step by lia. apply IH.
    + apply N.div_lt; lia.
    + cbn. by rewrite pretty_N_char_no_dot.
Qed.

(** The digits of an integer hold no decimal point. *)
Lemma hasDot_pretty_Z (z : Z) : hasDot (pretty z) = false.
Proof.
  assert (Hpos : ∀ p : positive, hasDot (pretty p) = false).
  { intros p. unfold pretty, pretty_positive, pretty, pretty_N.
    destruct (decide (N.pos p = 0%N)); [done|].
    by apply hasDot_pretty_N_go. }
  destruct z as [|p|p]; [done|apply Hpos|].
  unfold pretty, pretty_Z. cbn. apply Hpos.
Qed.

Lemma allZeros_dot (a b : string) :
  Number.allZeros (a ++ String "." b) = false.
Proof.
  induction a as [|c a IH]; [done|]. rewrite append_cons.
  cbn [Number.allZeros]. rewrite IH. apply andb_false_r.
Qed.

(** The pattern cannot match from a position before the decimal point,
    so what stands before the point is kept. *)
Lemma trimZeros_before_dot (a b : string) :
  hasDot a = false →
  Number.trimZeros (a ++ String "." b)
  = a ++ Number.trimZeros (String "." b).
Proof.
  induction a as [|c a IH]; [done|]. intros Ha. cbn in Ha.
  apply orb_false_iff in Ha as [Hc Ha].
  rewrite !append_cons. cbn [Number.trimZeros]. unfold Number.matchesDotZeros.
  rewrite Hc. cbn [andb orb].
  change (Number.allZeros (String c (a ++ String "." b)))
    with (Ascii.eqb c "0" && Number.allZeros (a ++ String "." b)).
  rewrite allZeros_dot, andb_false_r. cbn. by rewrite IH.
Qed.

(** [toFixed(f)] with [f > 0] prints a decimal point, with none before
    it. *)
Lemma toFixed_shape (f : nat) (x : Qc) :
  ∃ a b, Number.toFixed (S f) x = a ++ String "." b ∧ hasDot a = false.
Proof.
  unfold Number.toFixed, Number.pointed. cbv zeta.
  set (m := pretty (Number.fixedDigits (S f) (Number.abs x))).
  set (m' := if (String.length m <=? S f)%nat
             then Number.zeros (S f + 1 - String.length m) ++ m else m).
  set (k := String.length m').
  eexists (_ ++ substring 0 (k - S f) m'), (substring (k - S f) (S f) m').
  split.
  - by rewrite append_assoc.
  - rewrite hasDot_app. apply orb_false_iff. split.
    + by destruct (Number.ltb x 0).
    + apply hasDot_substring. unfold m'.
      destruct (_ <=? _)%nat; [|apply hasDot_pretty_Z].
      rewrite hasDot_app, hasDot_zeros. apply hasDot_pretty_Z.
Qed.

(** X21.  A tick label of the digits-or-trimmed rule keeps everything
    before the decimal point: for a value that is not an integer, the two
    decimal text has one point, and the label is the text before the
    point followed by the trimmed rest, so trimming zeros never eats
    digits of the integer part (100.001 reads "100", not "1").  A rest of
    zeros only is dropped with its point. *)
Theorem plainOrTrimmed_keeps_integer_part (d : Qc) :
  Number.isInteger d = false →
  ∃ a b,
    Number.toFixed 2 d = a ++ String "." b
    ∧ hasDot a = false
    ∧ plainOrTrimmed d = a ++ Number.trimZeros (String "." b)
    ∧ (b ≠ EmptyString → Number.allZeros b = true → plainOrTrimmed d = a).
Proof.
  intros Hint. destruct (toFixed_shape 1 d) as (a & b & Hfix & Ha).
  exists a, b. split; [done|]. split; [done|].
  assert (Hlabel : plainOrTrimmed d = a ++ Number.trimZeros (String "." b)).
  { unfold plainOrTrimmed. rewrite Hint, Hfix.
    by apply trimZeros_before_dot. }
  split; [done|]. intros Hb Hz. rewrite Hlabel.
  cbn [Number.trimZeros]. unfold Number.matchesDotZeros.
  assert (String.eqb b EmptyString = false) as -> by by apply String.eqb_neq.
  rewrite Hz. cbn [andb orb Ascii.eqb negb]. clear.
  induction a as [|c a IH]; [done|]. rewrite append_cons. by rewrite IH.
Qed.

Lemma plainOrTrimmed_keeps_integer_part_witness :
  ∃ a b,
    Number.toFixed 2 (Q2Qc (100001 # 1000)) = a ++ String "." b
    ∧ plainOrTrimmed (Q2Qc (100001 # 1000))
      = a ++ Number.trimZeros (String "." b).
Proof.
  destruct (plainOrTrimmed_keeps_integer_part (Q2Qc (100001 # 1000)))
    as (a & b & H1 & _ & H2 & _).
  - by vm_compute.
  - by exists a, b.
Defined.
